(** * flytekit.core.python_function_task

    A shallow embedding of [PythonFunctionTask], [AsyncPythonFunctionTask]
    and [EagerAsyncPythonFunctionTask]: the execution dispatcher, the dynamic
    workflow compiler and the eager bridge.

    Python objects are records, [Optional] values are [option], dicts are
    [gmap]s and the [OrderedDict] registry is an association list.  Methods
    are computations in a small state-and-exception monad over a [World]
    holding the entity ([self]), the context stack of [FlyteContextManager]
    and a log of the calls made to the wrapped task function. *)

From Stdlib Require Import ZArith.
From stdpp Require Import gmap strings list pretty.

Set Warnings "-register-all,-clear-no-such-hyp".
Local Open Scope string_scope.

(** ** Platform models

    The protobuf-backed models of [flytekit.models] and the handles of the
    remote platform are never inspected by this module: they stay abstract.
    [to_literal_model] is [BindingData.to_literal_model]. *)
Class Models := {
  Node : Type;
  TaskTemplate : Type;
  SubWorkflow : Type;
  BindingData : Type;
  Literal : Type;
  PyType : Type;
  TypedInterface : Type;
  TaskConfig : Type;
  TaskResolver : Type;
  CompilationState : Type;
  SerializationSettings : Type;
  FlyteRemote : Type;
  WorkflowGraph : Type;
  to_literal_model : BindingData -> Literal;
}.

Inductive ExecutionBehavior := DEFAULT | DYNAMIC | EAGER.

(** [ExecutionState.Mode]. *)
Inductive Mode :=
  | TASK_EXECUTION
  | LOCAL_WORKFLOW_EXECUTION
  | LOCAL_TASK_EXECUTION
  | DYNAMIC_TASK_EXECUTION
  | EAGER_EXECUTION
  | EAGER_LOCAL_EXECUTION.

(** The classes a key of the serializer's registry can belong to. *)
Inductive EntityClass :=
  | PythonTaskClass
  | ReferenceTaskClass
  | TaskSpecClass
  | LaunchPlanClass
  | WorkflowClass
  | OtherClass.

Inductive WorkflowFailurePolicy := FAIL_IMMEDIATELY | FAIL_AFTER_EXECUTABLE_NODES_COMPLETE.

#[global] Instance ExecutionBehavior_eq_dec : EqDecision ExecutionBehavior.
Proof. solve_decision. Defined.

#[global] Instance Mode_eq_dec : EqDecision Mode.
Proof. solve_decision. Defined.

Section DataModel.
Context {Mo : Models}.

Record Binding := { var : string; binding : BindingData }.

Record WorkflowTemplate := {
  wt_nodes : list Node;
  wt_outputs : list Binding;
}.

Record WorkflowSpec := {
  template : WorkflowTemplate;
  sub_workflows : list SubWorkflow;
}.

Record DynamicJobSpec := {
  min_successes : nat;
  tasks : list TaskTemplate;
  nodes : list Node;
  outputs : list Binding;
  subworkflows : list SubWorkflow;
}.

(** Python values that flow through the dispatcher. *)
Inductive pyobj :=
  | PyNone
  | PyInt (z : Z)
  | PyStr (s : string)
  | PyTuple (items : list pyobj)
  | PyVoidPromise (task_name : string)
  | PyLiteralMap (literals : gmap string Literal)
  | PyDynamicJobSpec (spec : DynamicJobSpec).

Inductive exn :=
  | ValueError (msg : string)
  | TypeError (msg : string)
  | AssertionError (msg : string)
  | AttributeError (msg : string)
  | IndexError (msg : string)
  | NotImplementedError
  | FlyteValueException (value : pyobj) (msg : string)
  | Raised (what : string).

Inductive result (A : Type) :=
  | OK (a : A)
  | Error (e : exn).
#[global] Arguments OK {A} a.
#[global] Arguments Error {A} e.

Definition kwargs_t := gmap string pyobj.

Record WorkerQueue := { wq_remote : FlyteRemote }.

Record ExecutionState := {
  mode : option Mode;
  working_dir : string;
}.

Record FlyteContext := {
  execution_state : option ExecutionState;
  compilation_state : option CompilationState;
  flyte_client : option FlyteRemote;
  worker_queue : option WorkerQueue;
  serialization_settings : SerializationSettings;
}.

(** [ExecutionState.with_params(mode=m)]. *)
Definition es_with_params (es : ExecutionState) (m : Mode) : ExecutionState :=
  {| mode := Some m; working_dir := working_dir es |}.

Definition with_execution_state (ctx : FlyteContext) (es : ExecutionState) : FlyteContext :=
  {| execution_state := Some es;
     compilation_state := compilation_state ctx;
     flyte_client := flyte_client ctx;
     worker_queue := worker_queue ctx;
     serialization_settings := serialization_settings ctx |}.

Definition with_compilation_state (ctx : FlyteContext) (cs : CompilationState) : FlyteContext :=
  {| execution_state := execution_state ctx;
     compilation_state := Some cs;
     flyte_client := flyte_client ctx;
     worker_queue := worker_queue ctx;
     serialization_settings := serialization_settings ctx |}.

Definition with_worker_queue (ctx : FlyteContext) (wq : WorkerQueue) : FlyteContext :=
  {| execution_state := execution_state ctx;
     compilation_state := compilation_state ctx;
     flyte_client := flyte_client ctx;
     worker_queue := Some wq;
     serialization_settings := serialization_settings ctx |}.

(** The native interface: ordered output names with their types. *)
Record Interface := {
  inputs : list (string * PyType);
  iface_outputs : list (string * PyType);
  output_tuple_name : option string;
}.

(** A Python function object: what the tracker reads off it, and its body,
    which runs under the context that is current when it is called. *)
Record Callable := {
  fn_name : string;
  fn_body : FlyteContext -> kwargs_t -> result pyobj;
}.

Record TaskMetadata := {
  interruptible : option bool;
  cache : bool;
}.

Record WorkflowMetadata := { on_failure : WorkflowFailurePolicy }.
Record WorkflowMetadataDefaults := { wmd_interruptible : bool }.

(** A [PythonFunctionWorkflow] object.  [wf_id] is the identity of the
    object (two objects are the same object iff their ids agree);
    [wf_graph] is what [compile] leaves in it. *)
Record PythonFunctionWorkflow := {
  wf_id : nat;
  wf_function : Callable;
  wf_metadata : WorkflowMetadata;
  wf_default_metadata : WorkflowMetadataDefaults;
  wf_python_interface : Interface;
  wf_graph : option WorkflowGraph;
}.

Record Entity := {
  entity_class : EntityClass;
  entity_name : string;
}.

(** The serialized form stored against a registry key. *)
Inductive Model :=
  | TaskSpecModel (tpl : TaskTemplate)
  | OtherModel (kind : string).

(** [task_resolver]: the module-level [default_task_resolver] object or a
    resolver supplied by the caller. *)
Inductive Resolver :=
  | default_task_resolver
  | CustomResolver (r : TaskResolver).

Record PythonFunctionTask := {
  _name : string;
  instantiated_in : option string;
  task_type : string;
  task_config : TaskConfig;
  _native_interface : Interface;
  python_interface : Interface;
  interface : TypedInterface;
  metadata : TaskMetadata;
  _task_resolver : Resolver;
  _task_function : Callable;
  _execution_mode : ExecutionBehavior;
  _node_dependency_hints : option (list Entity);
  _wf : option PythonFunctionWorkflow;
}.

(** One entry per call of the wrapped function: the context frame that was
    current, and the keyword arguments. *)
Inductive Event :=
  | Invoked (fn : string) (ctx : FlyteContext) (kwargs : kwargs_t).

(** The mutable world of one entity: [self], the number of workflow
    objects constructed so far, the context stack (innermost frame and the
    frames below it) and the call log. *)
Record World := {
  self : PythonFunctionTask;
  constructed : nat;
  ctx_top : FlyteContext;
  ctx_below : list FlyteContext;
  calls : list Event;
}.

End DataModel.

(** ** Collaborators

    Functions of other flytekit modules that this module calls.  Their
    designs are out of scope; only their signatures are fixed here.  The
    workflow and serializer entry points take the frame that is current when
    they are called, since they read [FlyteContextManager.current_context()]. *)
Class Collaborators {Mo : Models} := {
  (* flytekit.core.context_manager *)
  is_local_execution : ExecutionState -> bool;
  new_execution_state : FlyteContext -> ExecutionState;
  new_compilation_state : FlyteContext -> string -> CompilationState;
  cs_with_params : CompilationState -> string -> CompilationState;
  (* flytekit.core.interface *)
  transform_function_to_interface : Callable -> Interface;
  remove_inputs : Interface -> option (list string) -> Interface;
  transform_interface_to_typed_interface : Interface -> TypedInterface;
  (* flytekit.core.tracker *)
  extract_task_module : Callable -> string;
  istestfunction : Callable -> bool;
  isnested : Callable -> bool;
  is_functools_wrapped_module_level : Callable -> bool;
  (* flytekit.core.workflow: PythonFunctionWorkflow.compile / .execute *)
  wf_compile : FlyteContext -> PythonFunctionWorkflow -> kwargs_t -> result WorkflowGraph;
  wf_execute : FlyteContext -> PythonFunctionWorkflow -> kwargs_t -> result pyobj;
  (* flytekit.tools.translator: fills the registry and returns the spec *)
  get_serializable :
    FlyteContext -> SerializationSettings -> PythonFunctionWorkflow ->
    result (list (Entity * Model) * WorkflowSpec);
  (* flytekit.core.promise *)
  translate_inputs_to_literals :
    FlyteContext -> gmap string pyobj -> TypedInterface -> list (string * PyType) ->
    result (gmap string Literal);
}.

Declare Scope py_scope.
Delimit Scope py_scope with py.

Section Methods.
Context {Mo : Models} {Co : Collaborators}.

(** *** The monad *)

Definition M (A : Type) : Type := World -> result A * World.

Definition ret {A} (a : A) : M A := fun w => (OK a, w).

Definition raise {A} (e : exn) : M A := fun w => (Error e, w).

Definition bind {A B} (m : M A) (k : A -> M B) : M B := fun w =>
  match m w with
  | (OK a, w') => k a w'
  | (Error e, w') => (Error e, w')
  end.

Definition lift {A} (r : result A) : M A := fun w => (r, w).

Notation "x <- m ;; k" := (bind m (fun x => k))
  (at level 100, m at next level, k at level 200, right associativity) : py_scope.
Notation "m ;;; k" := (bind m (fun _ => k))
  (at level 100, k at level 200, right associativity) : py_scope.
Local Open Scope py_scope.

Definition get_self : M PythonFunctionTask := fun w => (OK (self w), w).

Definition set_wf (wf : option PythonFunctionWorkflow) : M unit := fun w =>
  let t := self w in
  (OK tt,
   {| self := {| _name := _name t; instantiated_in := instantiated_in t;
                 task_type := task_type t; task_config := task_config t;
                 _native_interface := _native_interface t;
                 python_interface := python_interface t;
                 interface := interface t; metadata := metadata t;
                 _task_resolver := _task_resolver t;
                 _task_function := _task_function t;
                 _execution_mode := _execution_mode t;
                 _node_dependency_hints := _node_dependency_hints t;
                 _wf := wf |};
      constructed := constructed w; ctx_top := ctx_top w;
      ctx_below := ctx_below w; calls := calls w |}).

(** [FlyteContextManager.current_context()]. *)
Definition current_context : M FlyteContext := fun w => (OK (ctx_top w), w).

Definition push_context (c : FlyteContext) (w : World) : World :=
  {| self := self w; constructed := constructed w;
     ctx_top := c; ctx_below := ctx_top w :: ctx_below w; calls := calls w |}.

Definition pop_context (w : World) : World :=
  match ctx_below w with
  | [] => w
  | c :: below =>
      {| self := self w; constructed := constructed w;
         ctx_top := c; ctx_below := below; calls := calls w |}
  end.

(** [with FlyteContextManager.with_context(c): body] -- the frame is popped
    on every exit, normal or exceptional. *)
Definition with_context {A} (c : FlyteContext) (body : M A) : M A := fun w =>
  let '(r, w') := body (push_context c w) in (r, pop_context w').

(** Calling [f] with keyword arguments: the body runs under the current
    frame; the call is logged. *)
Definition call (f : Callable) (kwargs : kwargs_t) : M pyobj := fun w =>
  (fn_body f (ctx_top w) kwargs,
   {| self := self w; constructed := constructed w; ctx_top := ctx_top w;
      ctx_below := ctx_below w;
      calls := calls w ++ [Invoked (fn_name f) (ctx_top w) kwargs] |}).

(** *** Python helpers *)

Definition str_truthy (s : string) : bool :=
  match s with EmptyString => false | _ => true end.

(** [sub in s] on strings. *)
Fixpoint str_contains (s sub : string) : bool :=
  if String.prefix sub s then true
  else match s with
       | EmptyString => false
       | String _ s' => str_contains s' sub
       end.

Definition is_tuple (v : pyobj) : bool :=
  match v with PyTuple _ => true | _ => false end.

(** [isinstance(v, VoidPromise) or v is None]. *)
Definition is_void (v : pyobj) : bool :=
  match v with PyNone | PyVoidPromise _ => true | _ => false end.

(** [v[0]]. *)
Definition py_first (v : pyobj) : result pyobj :=
  match v with
  | PyTuple (x :: _) => OK x
  | PyTuple [] => Error (IndexError "tuple index out of range")
  | PyStr (String c _) => OK (PyStr (String c EmptyString))
  | PyStr EmptyString => Error (IndexError "string index out of range")
  | _ => Error (TypeError "object is not subscriptable")
  end.

(** The items [enumerate(v)] walks over. *)
Definition py_iter (v : pyobj) : result (list pyobj) :=
  match v with
  | PyTuple xs => OK xs
  | PyStr s => OK (map (fun c => PyStr (String c EmptyString)) (String.list_ascii_of_string s))
  | _ => Error (TypeError "object is not iterable")
  end.

(** [{names[i]: items[i] for i, _ in enumerate(items)}], from index [i]. *)
Fixpoint zip_outputs (names : list string) (i : nat) (items : list pyobj)
    (acc : gmap string pyobj) : result (gmap string pyobj) :=
  match items with
  | [] => OK acc
  | x :: rest =>
      match names !! i with
      | None => Error (IndexError "list index out of range")
      | Some n => zip_outputs names (S i) rest (<[n := x]> acc)
      end
  end.

(** One step of a dict comprehension over bindings: the key [b.var] is set
    to [b.binding.to_literal_model()], replacing an earlier value. *)
Definition put_binding (m : gmap string Literal) (b : Binding) : gmap string Literal :=
  <[var b := to_literal_model (binding b)]> m.

(** [{b.var: b.binding.to_literal_model() for b in bindings}]. *)
Definition bindings_to_literals (bindings : list Binding) : gmap string Literal :=
  fold_left put_binding bindings ∅.

(** Modelled from the spec: the class hierarchy of [flytekit.core.base_task]
    and [flytekit.core.task], which is not part of this module.  A
    reference task is a task (it must serialize to a concrete task template
    like any other); launch plans and workflows are not. *)
Definition isinstance_Task (e : Entity) : bool :=
  match entity_class e with
  | PythonTaskClass | ReferenceTaskClass => true
  | _ => false
  end.

(** Modelled from the spec: [isinstance(e, task_models.TaskSpec)] on the
    class hierarchy of [flytekit.models.task]. *)
Definition isinstance_TaskSpec (e : Entity) : bool :=
  match entity_class e with TaskSpecClass => true | _ => false end.

(** Modelled from the spec: [isinstance(e, ReferenceTask)] on the class
    hierarchy of [flytekit.core.task]. *)
Definition isinstance_ReferenceTask (e : Entity) : bool :=
  match entity_class e with ReferenceTaskClass => true | _ => false end.

(** Modelled from the spec: the constructor of [PythonFunctionWorkflow],
    which lives in [flytekit.core.workflow].  The workflow is the task body
    reinterpreted as a graph-producing workflow; every construction yields a
    new object, numbered by the count of objects built before it. *)
Definition new_PythonFunctionWorkflow (f : Callable) (meta : WorkflowMetadata)
    (defaults : WorkflowMetadataDefaults) : M PythonFunctionWorkflow := fun w =>
  (OK {| wf_id := constructed w; wf_function := f; wf_metadata := meta;
         wf_default_metadata := defaults;
         wf_python_interface := transform_function_to_interface f;
         wf_graph := None |},
   {| self := self w; constructed := S (constructed w); ctx_top := ctx_top w;
      ctx_below := ctx_below w; calls := calls w |}).

(** Modelled from the spec: the constructor of [WorkerQueue], which lives
    in [flytekit.core.worker_queue]; the queue owns the remote client handle. *)
Definition new_WorkerQueue (remote : FlyteRemote) : WorkerQueue :=
  {| wq_remote := remote |}.

(** *** PythonFunctionTask *)

(** What the base classes ([PythonAutoContainerTask], the tracker) take from
    the remaining keyword arguments and record on the instance. *)
Record BaseKwargs := {
  kw_metadata : TaskMetadata;
  kw_instantiated_in : option string;
}.

Definition is_default_resolver (r : Resolver) : bool :=
  match r with default_task_resolver => true | CustomResolver _ => false end.

Definition nested_function_msg : string :=
  "TaskFunction cannot be a nested/inner or local function. " ++
  "It should be accessible at a module level for Flyte to execute it. Test modules with " ++
  "names beginning with `test_` are allowed to have nested tasks. " ++
  "If you're decorating your task function with custom decorators, use functools.wraps " ++
  "or functools.update_wrapper on the function wrapper. " ++
  "Alternatively if you want to create your own tasks with custom behavior use the TaskResolverMixin".

Definition node_dependency_hints_msg : string :=
  "node_dependency_hints should only be used on dynamic tasks. On static tasks and " ++
  "workflows its redundant because flyte can find the node dependencies automatically".

Definition __init__ (task_config : TaskConfig) (task_function : option Callable)
    (task_type : string) (ignore_input_vars : option (list string))
    (execution_mode : ExecutionBehavior) (task_resolver : option Resolver)
    (node_dependency_hints : option (list Entity)) (kw : BaseKwargs)
    : result PythonFunctionTask :=
  match task_function with
  | None => Error (ValueError "TaskFunction is a required parameter for PythonFunctionTask")
  | Some f =>
      let native_interface := transform_function_to_interface f in
      let mutated_interface := remove_inputs native_interface ignore_input_vars in
      let name := extract_task_module f in
      (* super().__init__: task_resolver or default_task_resolver *)
      let resolver := match task_resolver with
                      | Some r => r
                      | None => default_task_resolver
                      end in
      if is_default_resolver resolver
         && (negb (istestfunction f) && isnested f
             && negb (is_functools_wrapped_module_level f))
      then Error (ValueError nested_function_msg)
      else
        if bool_decide (node_dependency_hints <> None)
           && bool_decide (execution_mode <> DYNAMIC)
        then Error (ValueError node_dependency_hints_msg)
        else
          OK {| _name := name;
                instantiated_in := kw_instantiated_in kw;
                task_type := task_type;
                task_config := task_config;
                _native_interface := native_interface;
                python_interface := mutated_interface;
                interface := transform_interface_to_typed_interface mutated_interface;
                metadata := kw_metadata kw;
                _task_resolver := resolver;
                _task_function := f;
                _execution_mode := execution_mode;
                _node_dependency_hints := node_dependency_hints;
                _wf := None |}
  end.

Definition execution_mode (t : PythonFunctionTask) : ExecutionBehavior :=
  _execution_mode t.

Definition node_dependency_hints (t : PythonFunctionTask) : option (list Entity) :=
  _node_dependency_hints t.

Definition task_function (t : PythonFunctionTask) : Callable :=
  _task_function t.

(** The [name] property. *)
Definition name (t : PythonFunctionTask) : string :=
  match instantiated_in t with
  | Some m =>
      if str_truthy m && negb (str_contains (_name t) m)
      then m ++ "." ++ _name t
      else _name t
  | None => _name t
  end.

Definition _create_and_cache_dynamic_workflow : M unit :=
  t <- get_self ;;
  match _wf t with
  | None =>
      let workflow_meta := {| on_failure := FAIL_IMMEDIATELY |} in
      let defaults :=
        {| wmd_interruptible :=
             match interruptible (metadata t) with
             | Some b => b
             | None => false
             end |} in
      wf <- new_PythonFunctionWorkflow (_task_function t) workflow_meta defaults ;;
      set_wf (Some wf)
  | Some _ => ret tt
  end.

(** [self._wf.compile] with the keyword arguments: the graph is stored in
    the cached workflow object, whose identity does not change. *)
Definition compile_cached_workflow (kwargs : kwargs_t) : M unit :=
  t <- get_self ;;
  match _wf t with
  | None => raise (AttributeError "'NoneType' object has no attribute 'compile'")
  | Some wf =>
      cur <- current_context ;;
      g <- lift (wf_compile cur wf kwargs) ;;
      set_wf (Some {| wf_id := wf_id wf; wf_function := wf_function wf;
                      wf_metadata := wf_metadata wf;
                      wf_default_metadata := wf_default_metadata wf;
                      wf_python_interface := wf_python_interface wf;
                      wf_graph := Some g |})
  end.

(** The loop over [model_entities.items()], appending to [tts]. *)
Fixpoint gather_task_templates (model_entities : list (Entity * Model))
    (tts : list TaskTemplate) : result (list TaskTemplate) :=
  match model_entities with
  | [] => OK tts
  | (entity, model) :: rest =>
      if negb (isinstance_Task entity) && negb (isinstance_TaskSpec entity)
      then gather_task_templates rest tts
      else if isinstance_ReferenceTask entity
      then Error (ValueError "Reference tasks are currently unsupported within dynamic tasks")
      else match model with
           | TaskSpecModel tpl => gather_task_templates rest (tts ++ [tpl])
           | OtherModel kind =>
               Error (TypeError ("Unexpected type for serialized form of task. Expected TaskSpec, "
                                 ++ "but got " ++ kind))
           end
  end.

Definition compile_into_workflow (ctx : FlyteContext) (task_function : Callable)
    (kwargs : kwargs_t) : M pyobj :=
  let cs := match compilation_state ctx with
            | None => new_compilation_state ctx "d"
            | Some cs0 => cs_with_params cs0 "d"
            end in
  let updated_ctx := with_compilation_state ctx cs in
  t <- get_self ;;
  let updated_ctx :=
    if bool_decide (execution_mode t = DYNAMIC)
    then with_execution_state updated_ctx
           (es_with_params (new_execution_state ctx) DYNAMIC_TASK_EXECUTION)
    else updated_ctx in
  with_context updated_ctx (
    _create_and_cache_dynamic_workflow ;;;
    compile_cached_workflow kwargs ;;;
    t <- get_self ;;
    match _wf t with
    | None => raise (AttributeError "'NoneType' object has no attribute 'compile'")
    | Some wf =>
        cur <- current_context ;;
        sr <- lift (get_serializable cur (serialization_settings ctx) wf) ;;
        let model_entities := fst sr in
        let workflow_spec := snd sr in
        (* If no nodes were produced, just return the strict outputs *)
        if Nat.eqb (length (wt_nodes (template workflow_spec))) 0
        then ret (PyLiteralMap (bindings_to_literals (wt_outputs (template workflow_spec))))
        else
          (* Gather underlying TaskTemplates that get referenced. *)
          tts <- lift (gather_task_templates model_entities []) ;;
          let dj_spec :=
            {| min_successes := length (wt_nodes (template workflow_spec));
               tasks := tts;
               nodes := wt_nodes (template workflow_spec);
               outputs := wt_outputs (template workflow_spec);
               subworkflows := sub_workflows workflow_spec |} in
          ret (PyDynamicJobSpec dj_spec)
    end).

(** [ctx.execution_state and p(ctx.execution_state)]. *)
Definition state_and (ctx : FlyteContext) (p : ExecutionState -> bool) : bool :=
  match execution_state ctx with
  | Some es => p es
  | None => false
  end.

Definition mode_is (m : Mode) (es : ExecutionState) : bool :=
  bool_decide (mode es = Some m).

(** [cast(ExecutionState, ctx.execution_state)] followed by an attribute
    access. *)
Definition cast_execution_state (ctx : FlyteContext) : M ExecutionState :=
  match execution_state ctx with
  | Some es => ret es
  | None => raise (AttributeError "'NoneType' object has no attribute")
  end.

(** The output map of the local dynamic branch, from the raw result. *)
Definition outputs_as_map (t : PythonFunctionTask) (function_outputs : pyobj)
    : result (gmap string pyobj) :=
  let expected_output_names := map fst (iface_outputs (python_interface t)) in
  if Nat.eqb (length expected_output_names) 1
  then
    match expected_output_names with
    | n0 :: _ =>
        if match output_tuple_name (python_interface t) with
           | Some tn => str_truthy tn
           | None => false
           end && is_tuple function_outputs
        then match py_first function_outputs with
             | OK x => OK {[ n0 := x ]}
             | Error e => Error e
             end
        else OK {[ n0 := function_outputs ]}
    | [] => Error (IndexError "list index out of range")
    end
  else
    match py_iter function_outputs with
    | OK items => zip_outputs expected_output_names 0 items ∅
    | Error e => Error e
    end.

Definition dynamic_execute (task_function : Callable) (kwargs : kwargs_t) : M pyobj :=
  ctx <- current_context ;;
  if state_and ctx is_local_execution
  then
    _create_and_cache_dynamic_workflow ;;;
    t <- get_self ;;
    es <- (if bool_decide (execution_mode t = DYNAMIC)
           then ret (es_with_params (new_execution_state ctx) DYNAMIC_TASK_EXECUTION)
           else cast_execution_state ctx) ;;
    function_outputs <-
      with_context (with_execution_state ctx es)
        (match _wf t with
         | None => raise (AttributeError "'NoneType' object has no attribute 'execute'")
         | Some wf => cur <- current_context ;; lift (wf_execute cur wf kwargs)
         end) ;;
    if is_void function_outputs
    then ret (PyVoidPromise (name t))
    else
      match _wf t with
      | None => raise (AttributeError "'NoneType' object has no attribute 'python_interface'")
      | Some wf =>
          if Nat.eqb (length (iface_outputs (wf_python_interface wf))) 0
          then raise (FlyteValueException function_outputs
                        "Interface output should've been VoidPromise or None.")
          else
            wf_outputs_as_map <- lift (outputs_as_map t function_outputs) ;;
            wf_outputs_as_literal_dict <-
              lift (translate_inputs_to_literals ctx wf_outputs_as_map
                      (interface t) (iface_outputs (python_interface t))) ;;
            ret (PyLiteralMap wf_outputs_as_literal_dict)
      end
  else if state_and ctx (mode_is TASK_EXECUTION)
  then compile_into_workflow ctx task_function kwargs
  else if state_and ctx (mode_is LOCAL_TASK_EXECUTION)
  then call task_function kwargs
  else
    (* the message also prints [ctx.execution_state] *)
    raise (ValueError "Invalid execution provided, execution state: ").

(** [PythonFunctionTask.execute].  A Python function that falls off its end
    returns [None]: that is the [EAGER] case here. *)
Definition execute (kwargs : kwargs_t) : M pyobj :=
  t <- get_self ;;
  if bool_decide (execution_mode t = DEFAULT)
  then call (_task_function t) kwargs
  else if bool_decide (execution_mode t = DYNAMIC)
  then dynamic_execute (_task_function t) kwargs
  else ret PyNone.

(** *** AsyncPythonFunctionTask

    A coroutine is run to completion where it is awaited, so [await f(...)]
    is the call itself. *)

(** [assert not args]. *)
Definition assert_not_args (args : list pyobj) : M unit :=
  match args with
  | [] => ret tt
  | _ :: _ => raise (AssertionError "")
  end.

Definition AsyncPythonFunctionTask_async_execute (args : list pyobj)
    (kwargs : kwargs_t) : M pyobj :=
  assert_not_args args ;;;
  t <- get_self ;;
  if bool_decide (execution_mode t = DEFAULT)
  then call (_task_function t) kwargs
  else if bool_decide (execution_mode t = DYNAMIC)
  then raise NotImplementedError
  else ret PyNone.

(** *** EagerAsyncPythonFunctionTask *)

(** The constructor drops any [execution_mode] keyword and always passes
    [EAGER] up. *)
Definition EagerAsyncPythonFunctionTask__init__ (task_config : TaskConfig)
    (task_function : option Callable) (task_type : string)
    (ignore_input_vars : option (list string)) (task_resolver : option Resolver)
    (node_dependency_hints : option (list Entity)) (kw : BaseKwargs)
    : result PythonFunctionTask :=
  __init__ task_config task_function task_type ignore_input_vars EAGER
    task_resolver node_dependency_hints kw.

Definition local_execution_mode : Mode := EAGER_LOCAL_EXECUTION.

Definition remote_client_msg : string :=
  "Remote client needs to be present in the context for cluster-based execution" ++
  " of an eager task.".

Definition run_with_backend (ctx : FlyteContext) (kwargs : kwargs_t) : M pyobj :=
  let remote := flyte_client ctx in
  match remote with
  | None => raise (AssertionError remote_client_msg)
  | Some remote =>
      (* set up context *)
      let mode := EAGER_EXECUTION in
      es <- cast_execution_state ctx ;;
      let builder := with_execution_state ctx (es_with_params es mode) in
      (* ensure that the worker queue is in context *)
      let builder :=
        match worker_queue ctx with
        | None => with_worker_queue builder (new_WorkerQueue remote)
        | Some _ => builder
        end in
      t <- get_self ;;
      with_context builder (call (_task_function t) kwargs)
  end.

Definition async_execute (args : list pyobj) (kwargs : kwargs_t) : M pyobj :=
  assert_not_args args ;;;
  ctx <- current_context ;;
  es <- cast_execution_state ctx ;;
  let is_local := is_local_execution es in
  if negb is_local
  then
    (* a real execution: the awaited value is not returned *)
    run_with_backend ctx kwargs ;;;
    ret PyNone
  else
    let mode := local_execution_mode in
    t <- get_self ;;
    with_context (with_execution_state ctx (es_with_params es mode))
      (call (_task_function t) kwargs).

End Methods.

(** ** Frames and objects named in the statements *)

Section Frames.
Context {Mo : Models} {Co : Collaborators}.

(** The workflow object [self._wf] refers to once
    [_create_and_cache_dynamic_workflow] has run in world [w]. *)
Definition materialized (w : World) : PythonFunctionWorkflow :=
  match _wf (self w) with
  | Some wf => wf
  | None =>
      {| wf_id := constructed w;
         wf_function := _task_function (self w);
         wf_metadata := {| on_failure := FAIL_IMMEDIATELY |};
         wf_default_metadata :=
           {| wmd_interruptible :=
                match interruptible (metadata (self w)) with
                | Some b => b
                | None => false
                end |};
         wf_python_interface := transform_function_to_interface (_task_function (self w));
         wf_graph := None |}
  end.

(** The same object after [compile] stored graph [g] in it. *)
Definition with_graph (wf : PythonFunctionWorkflow) (g : WorkflowGraph)
    : PythonFunctionWorkflow :=
  {| wf_id := wf_id wf; wf_function := wf_function wf;
     wf_metadata := wf_metadata wf;
     wf_default_metadata := wf_default_metadata wf;
     wf_python_interface := wf_python_interface wf;
     wf_graph := Some g |}.

(** The frame [compile_into_workflow] pushes ([updated_ctx]). *)
Definition compile_frame (t : PythonFunctionTask) (ctx : FlyteContext) : FlyteContext :=
  let cs := match compilation_state ctx with
            | None => new_compilation_state ctx "d"
            | Some cs0 => cs_with_params cs0 "d"
            end in
  let updated_ctx := with_compilation_state ctx cs in
  if bool_decide (execution_mode t = DYNAMIC)
  then with_execution_state updated_ctx
         (es_with_params (new_execution_state ctx) DYNAMIC_TASK_EXECUTION)
  else updated_ctx.

(** The frame under which a [DYNAMIC] entity runs its workflow locally. *)
Definition local_dynamic_frame (ctx : FlyteContext) : FlyteContext :=
  with_execution_state ctx
    (es_with_params (new_execution_state ctx) DYNAMIC_TASK_EXECUTION).

(** The frame [run_with_backend] pushes when the context has no worker
    queue. *)
Definition backend_frame (ctx : FlyteContext) (es : ExecutionState)
    (remote : FlyteRemote) : FlyteContext :=
  with_worker_queue (with_execution_state ctx (es_with_params es EAGER_EXECUTION))
    (new_WorkerQueue remote).

(** The frame of the local branch of the eager [async_execute]. *)
Definition eager_local_frame (ctx : FlyteContext) (es : ExecutionState) : FlyteContext :=
  with_execution_state ctx (es_with_params es EAGER_LOCAL_EXECUTION).

(** The world after one logged call of [f]. *)
Definition logged (f : Callable) (c : FlyteContext) (kwargs : kwargs_t) (w : World) : World :=
  {| self := self w; constructed := constructed w; ctx_top := ctx_top w;
     ctx_below := ctx_below w;
     calls := calls w ++ [Invoked (fn_name f) c kwargs] |}.

(** What the local dynamic branch makes of the raw result [v] of the
    workflow: the statements of that branch after the workflow has run. *)
Definition normalize_local (t : PythonFunctionTask) (wf : PythonFunctionWorkflow)
    (ctx : FlyteContext) (v : pyobj) : result pyobj :=
  if is_void v then OK (PyVoidPromise (name t))
  else if Nat.eqb (length (iface_outputs (wf_python_interface wf))) 0
  then Error (FlyteValueException v "Interface output should've been VoidPromise or None.")
  else match outputs_as_map t v with
       | Error e => Error e
       | OK m =>
           match translate_inputs_to_literals ctx m (interface t)
                   (iface_outputs (python_interface t)) with
           | Error e => Error e
           | OK d => OK (PyLiteralMap d)
           end
       end.

(** The job spec emitted for workflow spec [ws] and collected templates. *)
Definition job_spec_of (ws : WorkflowSpec) (tts : list TaskTemplate) : DynamicJobSpec :=
  {| min_successes := length (wt_nodes (template ws));
     tasks := tts;
     nodes := wt_nodes (template ws);
     outputs := wt_outputs (template ws);
     subworkflows := sub_workflows ws |}.

(** The literal bound to an output. *)
Definition bound_literal (b : Binding) : Literal := to_literal_model (binding b).

(** The nested-function check of the constructor lets [f] through. *)
Definition module_level (f : Callable) (task_resolver : option Resolver) : bool :=
  negb (is_default_resolver match task_resolver with
                             | Some r => r
                             | None => default_task_resolver
                             end
        && (negb (istestfunction f) && isnested f
            && negb (is_functools_wrapped_module_level f))).

End Frames.

(** ** A concrete platform

    Small stand-ins for the platform models and collaborators, so that the
    methods can be run: nodes, templates and handles are names, literals are
    integers, and the serializer answers by the name of the workflow's
    function. *)

Module Demo.

Definition models : Models :=
  {| Node := string; TaskTemplate := string; SubWorkflow := string;
     BindingData := Z; Literal := Z; PyType := string;
     TypedInterface := list (string * string); TaskConfig := unit;
     TaskResolver := string; CompilationState := string;
     SerializationSettings := unit; FlyteRemote := string;
     WorkflowGraph := list string;
     to_literal_model := fun z => z |}.

#[local] Existing Instance models.

Definition int_out : Interface :=
  {| inputs := [("x", "int")]; iface_outputs := [("o0", "int")];
     output_tuple_name := None |}.

Definition no_out : Interface :=
  {| inputs := []; iface_outputs := []; output_tuple_name := None |}.

Definition interface_of (f : Callable) : Interface :=
  if String.eqb (fn_name f) "log" then no_out else int_out.

Definition local_modes (es : ExecutionState) : bool :=
  match mode es with
  | Some LOCAL_WORKFLOW_EXECUTION | Some LOCAL_TASK_EXECUTION
  | Some EAGER_LOCAL_EXECUTION => true
  | _ => false
  end.

Definition inc_task : Entity :=
  {| entity_class := PythonTaskClass; entity_name := "inc" |}.
Definition nightly_lp : Entity :=
  {| entity_class := LaunchPlanClass; entity_name := "nightly" |}.
Definition remote_task : Entity :=
  {| entity_class := ReferenceTaskClass; entity_name := "remote.inc" |}.

Definition o0_is_7 : Binding := {| var := "o0"; binding := 7%Z |}.

Definition const_spec : WorkflowSpec :=
  {| template := {| wt_nodes := []; wt_outputs := [o0_is_7] |};
     sub_workflows := [] |}.

Definition inc_entry : Entity * Model := (inc_task, TaskSpecModel "inc").
Definition remote_entry : Entity * Model := (remote_task, OtherModel "NoneType").
Definition nightly_entry : Entity * Model := (nightly_lp, OtherModel "LaunchPlan").

Definition ref_registry : list (Entity * Model) := [inc_entry; remote_entry].
Definition ref_spec : WorkflowSpec :=
  {| template := {| wt_nodes := ["dn0"; "dn1"]; wt_outputs := [o0_is_7] |};
     sub_workflows := [] |}.

Definition gen_registry : list (Entity * Model) := [nightly_entry; inc_entry].
Definition gen_spec : WorkflowSpec :=
  {| template := {| wt_nodes := ["dn0"; "dn1"; "dn2"]; wt_outputs := [o0_is_7] |};
     sub_workflows := ["sub"] |}.

Definition serialize (wf : PythonFunctionWorkflow)
    : result (list (Entity * Model) * WorkflowSpec) :=
  if String.eqb (fn_name (wf_function wf)) "gen_const" then OK ([], const_spec)
  else if String.eqb (fn_name (wf_function wf)) "gen_ref" then OK (ref_registry, ref_spec)
  else OK (gen_registry, gen_spec).

Definition to_literals (m : gmap string (pyobj))
    : result (gmap string Z) :=
  map_fold (fun k v acc =>
              match acc, v with
              | OK lits, PyInt z => OK (<[k := z]> lits)
              | OK _, _ => Error (TypeError "not an int")
              | Error e, _ => Error e
              end) (OK ∅) m.

Definition collaborators : Collaborators :=
  {| is_local_execution := local_modes;
     new_execution_state := fun _ => {| mode := None; working_dir := "/tmp/flyte" |};
     new_compilation_state := fun _ prefix => prefix;
     cs_with_params := fun _ prefix => prefix;
     transform_function_to_interface := interface_of;
     remove_inputs := fun i _ => i;
     transform_interface_to_typed_interface := fun i => iface_outputs i;
     extract_task_module := fun f => fn_name f;
     istestfunction := fun _ => false;
     isnested := fun f => str_contains (fn_name f) "<locals>";
     is_functools_wrapped_module_level := fun _ => false;
     wf_compile := fun _ _ _ => OK [];
     wf_execute := fun cur wf kwargs => fn_body (wf_function wf) cur kwargs;
     get_serializable := fun _ _ wf => serialize wf;
     translate_inputs_to_literals := fun _ m _ _ => to_literals m |}.

(** [def double(x: int) -> int: return 2 * x] *)
Definition double : Callable :=
  {| fn_name := "double";
     fn_body := fun _ kwargs =>
       match kwargs !! "x" with
       | Some (PyInt x) => OK (PyInt (2 * x))
       | _ => Error (TypeError "double() got unexpected arguments")
       end |}.

(** A body that returns nothing. *)
Definition silent (fname : string) : Callable :=
  {| fn_name := fname; fn_body := fun _ _ => OK PyNone |}.

Definition frame (m : option Mode) (client : option string) : FlyteContext :=
  {| execution_state := Some {| mode := m; working_dir := "/tmp/flyte" |};
     compilation_state := None;
     flyte_client := client;
     worker_queue := None;
     serialization_settings := tt |}.

Definition entity (f : Callable) (b : ExecutionBehavior) : PythonFunctionTask :=
  {| _name := fn_name f; instantiated_in := Some "my.module";
     task_type := "python-task"; task_config := tt;
     _native_interface := interface_of f; python_interface := interface_of f;
     interface := iface_outputs (interface_of f);
     metadata := {| interruptible := None; cache := false |};
     _task_resolver := default_task_resolver;
     _task_function := f; _execution_mode := b;
     _node_dependency_hints := None; _wf := None |}.

Definition world (t : PythonFunctionTask) (c : FlyteContext) : World :=
  {| self := t; constructed := 0; ctx_top := c; ctx_below := []; calls := [] |}.

Definition base_kwargs : BaseKwargs :=
  {| kw_metadata := {| interruptible := None; cache := false |};
     kw_instantiated_in := Some "my.module" |}.

(** A body that returns a value although its interface declares none. *)
Definition chatty : Callable :=
  {| fn_name := "log"; fn_body := fun _ _ => OK (PyInt 1) |}.

Definition kw3 : gmap string pyobj := {[ "x" := PyInt 3 ]}.
Definition no_kwargs : gmap string pyobj := ∅.

(** [double] as a [DEFAULT] task, called while a task executes. *)
Definition double_world : World :=
  world (entity double DEFAULT) (frame (Some TASK_EXECUTION) None).

(** A dynamic task with one declared output whose body returns nothing, run
    locally. *)
Definition void_world : World :=
  world (entity (silent "gen") DYNAMIC) (frame (Some LOCAL_WORKFLOW_EXECUTION) None).

(** A dynamic task with no declared output whose body returns 1, run locally. *)
Definition chatty_world : World :=
  world (entity chatty DYNAMIC) (frame (Some LOCAL_WORKFLOW_EXECUTION) None).

(** Dynamic tasks compiled on the backend: three nodes, no node, and a
    reference task in the registry. *)
Definition gen_world : World :=
  world (entity (silent "gen") DYNAMIC) (frame (Some TASK_EXECUTION) None).
Definition gen_const_world : World :=
  world (entity (silent "gen_const") DYNAMIC) (frame (Some TASK_EXECUTION) None).
Definition gen_ref_world : World :=
  world (entity (silent "gen_ref") DYNAMIC) (frame (Some TASK_EXECUTION) None).

(** [double] as an eager task on the backend, without and with a remote
    client, and run locally. *)
Definition eager_world (client : option string) : World :=
  world (entity double EAGER) (frame (Some TASK_EXECUTION) client).
Definition eager_local_world : World :=
  world (entity double EAGER) (frame (Some LOCAL_TASK_EXECUTION) None).

Definition backend_state : ExecutionState :=
  {| mode := Some TASK_EXECUTION; working_dir := "/tmp/flyte" |}.
Definition local_state : ExecutionState :=
  {| mode := Some LOCAL_WORKFLOW_EXECUTION; working_dir := "/tmp/flyte" |}.

End Demo.

(** ** The rest of the module *)

Section LocalExecute.
Context {Mo : Models} {Co : Collaborators}.

(** [flytekit.core.promise.translate_inputs_to_native] and
    [LocalConfig.auto().cache_enabled], both defined outside this module. *)
Variable translate_inputs_to_native :
  FlyteContext -> kwargs_t -> TypedInterface -> result kwargs_t.
Variable cache_enabled : bool.

Notation "x <- m ;; k" := (bind m (fun x => k))
  (at level 100, m at next level, k at level 200, right associativity) : py_scope.

(** [EagerAsyncPythonFunctionTask.local_execute].  [self.execute] is the
    synchronous face of [async_execute]. *)
Definition local_execute (ctx : FlyteContext) (kwargs : kwargs_t) : M pyobj :=
  (t <- get_self ;;
   native_values <- lift (translate_inputs_to_native ctx kwargs (interface t)) ;;
   (* if metadata.cache is set, check memoized version *)
   if cache (metadata t) && cache_enabled
   then raise NotImplementedError
   else
     output_native_values <- async_execute [] native_values ;;
     ret output_native_values)%py.

End LocalExecute.

Section Observations.
Context {Mo : Models}.


(** Whether the walk over the registry looks at an entry at all. *)
Definition is_task_entry (e : Entity) : bool :=
  isinstance_Task e || isinstance_TaskSpec e.

(** The template a registry entry contributes to [tts]. *)
Definition entry_template (em : Entity * Model) : option TaskTemplate :=
  if is_task_entry em.1
  then match em.2 with
       | TaskSpecModel tpl => Some tpl
       | OtherModel _ => None
       end
  else None.

(** An entry the walk gets past. *)
Definition entry_accepted (em : Entity * Model) : bool :=
  negb (is_task_entry em.1)
  || (negb (isinstance_ReferenceTask em.1)
      && match em.2 with TaskSpecModel _ => true | OtherModel _ => false end).

(** [self.python_interface.output_tuple_name] is truthy. *)
Definition tuple_convention (t : PythonFunctionTask) : bool :=
  match output_tuple_name (python_interface t) with
  | Some tn => str_truthy tn
  | None => false
  end.

(** The declared output names of the entity, in order. *)
Definition output_names (t : PythonFunctionTask) : list string :=
  map fst (iface_outputs (python_interface t)).


End Observations.

Section DispatchObservations.
Context {Mo : Models} {Co : Collaborators}.


(** The literal map the local dynamic branch returns for output map [m]. *)
Definition literal_map_of (t : PythonFunctionTask) (ctx : FlyteContext)
    (m : gmap string pyobj) : result pyobj :=
  match translate_inputs_to_literals ctx m (interface t)
          (iface_outputs (python_interface t)) with
  | OK d => OK (PyLiteralMap d)
  | Error e => Error e
  end.

End DispatchObservations.

(** * flytekit.utils.async_utils *)

Module AsyncUtils.

Inductive exc :=
  | AssertionError (msg : string)
  | RuntimeError (msg : string)
  | OtherException (what : string).

Inductive outcome (A : Type) :=
  | Returned (a : A)
  | Raised (e : exc).
Arguments Returned {A} a.
Arguments Raised {A} e.

(** The world of the bridge: what [asyncio.get_running_loop()] does in the
    calling thread, the lines sent to [logger.error], and the names of the
    functions called so far. *)
Record Thread (Loop : Type) := {
  get_running_loop : outcome Loop;
  logged_errors : list string;
  called : list string;
}.
Arguments get_running_loop {Loop} _.
Arguments logged_errors {Loop} _.
Arguments called {Loop} _.

Definition log_error {Loop} (line : string) (th : Thread Loop) : Thread Loop :=
  {| get_running_loop := get_running_loop th;
     logged_errors := logged_errors th ++ [line];
     called := called th |}.

(** An async function: its [__name__] and what running its coroutine to
    completion gives. *)
Record AsyncFunc (Args Val : Type) := {
  func_name : string;
  run : Args -> outcome Val;
}.
Arguments func_name {Args Val} _.
Arguments run {Args Val} _.

Definition no_loop_text : string := "no running event loop".

Definition ensure_no_loop {Loop} (error_msg : string) (th : Thread Loop)
    : outcome unit * Thread Loop :=
  match get_running_loop th with
  | Returned _ => (Raised (AssertionError error_msg), th)
  | Raised (RuntimeError e) =>
      if negb (str_contains e no_loop_text)
      then (Raised (RuntimeError e), log_error ("Unknown RuntimeError " ++ e) th)
      else (Returned tt, th)
  | Raised e => (Raised e, th)
  end.

(** Falls off the end, hence [None], when the [RuntimeError] is the expected
    one. *)
Definition ensure_and_get_running_loop {Loop} (th : Thread Loop)
    : outcome (option Loop) * Thread Loop :=
  match get_running_loop th with
  | Returned l => (Returned (Some l), th)
  | Raised (RuntimeError e) =>
      if negb (str_contains e no_loop_text)
      then (Raised (RuntimeError e), log_error ("Unknown RuntimeError " ++ e) th)
      else (Returned None, th)
  | Raised e => (Raised e, th)
  end.

Definition top_level_sync {Loop Args Val} (func : AsyncFunc Args Val) (args : Args)
    (th : Thread Loop) : outcome Val * Thread Loop :=
  match ensure_no_loop ("Calling " ++ func_name func ++
                        " when event loop active not allowed") th with
  | (Raised e, th') => (Raised e, th')
  | (Returned _, th') =>
      (* coro = func(...); asyncio.run(coro) *)
      (run func args,
       {| get_running_loop := get_running_loop th';
          logged_errors := logged_errors th';
          called := called th' ++ [func_name func] |})
  end.

Definition top_level_sync_wrapper {Loop Args Val} (func : AsyncFunc Args Val)
    : Args -> Thread Loop -> outcome Val * Thread Loop :=
  fun args => top_level_sync func args.

End AsyncUtils.

(** * flytekit.exceptions.utils *)

Module ExceptionUtils.

Inductive exc :=
  | OSError (msg : string)
  | SyntaxError (msg : string)
  | TypeError (msg : string)
  | IndexError (msg : string).

Inductive outcome (A : Type) :=
  | Returned (a : A)
  | Raised (e : exc).
Arguments Returned {A} a.
Arguments Raised {A} e.

(** A node met by [ast.walk]: a [FunctionDef] with its name, its line and
    its positional parameters (name and column), or anything else. *)
Inductive ast_node :=
  | FunctionDef (fname : string) (lineno : Z) (args : list (string * Z))
  | OtherNode.

(** A function object as this module sees it: its [__name__], what
    [inspect.getsourcelines] gives for it, and the nodes of its parsed
    source in the order [ast.walk] yields them. *)
Record Function := {
  __name__ : string;
  getsourcelines : outcome (list string * Z);
  walk : outcome (list ast_node);
}.

(** The inner loop over [node.args.args]. *)
Fixpoint find_arg (args : list (string * Z)) (param_name : string) : option Z :=
  match args with
  | [] => None
  | (arg, col_offset) :: rest =>
      if String.eqb arg param_name then Some col_offset
      else find_arg rest param_name
  end.

(** The loop over [ast.walk(module)]. *)
Fixpoint find_param (nodes : list ast_node) (func_name param_name : string)
    (start_line : Z) : option (Z * Z) :=
  match nodes with
  | [] => None
  | FunctionDef fname lineno args :: rest =>
      if String.eqb fname func_name
      then match find_arg args param_name with
           | Some column_offset => Some (start_line + lineno - 1, column_offset)%Z
           | None => find_param rest func_name param_name start_line
           end
      else find_param rest func_name param_name start_line
  | OtherNode :: rest => find_param rest func_name param_name start_line
  end.

(** Returns [None] when the loop ends without a match. *)
Definition get_function_param_location (func : Function) (param_name : string)
    : outcome (option (Z * Z)) :=
  match getsourcelines func with
  | Raised e => Raised e
  | Returned (source_lines, start_line) =>
      match walk func with
      | Raised e => Raised e
      | Returned nodes =>
          Returned (find_param nodes (__name__ func) param_name start_line)
      end
  end.

(** The join over [range(n)] from index [i]: each line with its number. *)
Fixpoint numbered_lines (lines : list string) (start_line : Z) (i n : nat)
    : outcome string :=
  match n with
  | O => Returned ""
  | S n' =>
      match lines !! i with
      | None => Raised (IndexError "list index out of range")
      | Some line =>
          match numbered_lines lines start_line (S i) n' with
          | Returned rest =>
              Returned (pretty (start_line + Z.of_nat i)%Z ++ " " ++ line ++ rest)
          | Raised e => Raised e
          end
      end
  end.



Definition get_source_code_from_fn (fn : Function) (param_name : string)
    : outcome (string * Z) :=
  match getsourcelines fn with
  | Raised e => Raised e
  | Returned (lines, start_line) =>
      match get_function_param_location fn param_name with
      | Raised e => Raised e
      | Returned None => Raised (TypeError "cannot unpack non-iterable NoneType object")
      | Returned (Some (target_line_no, column_offset)) =>
          let line_index := (target_line_no - start_line)%Z in
          match numbered_lines lines start_line 0 (Z.to_nat (line_index + 1)) with
          | Returned source_code => Returned (source_code, column_offset)
          | Raised e => Raised e
          end
      end
  end.

(** An exception object: its message and its instance attributes. *)
Record Exception := {
  message : string;
  attributes : gmap string string;
}.

(** [' ' * n]. *)
Definition spaces (n : Z) : string :=
  String.concat "" (replicate (Z.to_nat n) " ").

(** [str(e)]. *)
Definition exc_message (e : exc) : string :=
  match e with
  | OSError msg | SyntaxError msg | TypeError msg | IndexError msg => msg
  end.

Section Annotate.
(** [flytekit.core.constants.SOURCE_CODE]. *)
Variable SOURCE_CODE : string.

(** Returns the exception and the lines sent to [logger.error]. *)
Definition annotate_exception_with_code (exception : Exception) (fn : Function)
    (param_name : string) : Exception * list string :=
  match get_source_code_from_fn fn param_name with
  | Returned (source_code, column_offset) =>
      ({| message := message exception;
          attributes :=
            <[SOURCE_CODE := source_code ++ spaces column_offset ++ " # ^ "
                             ++ message exception]> (attributes exception) |},
       [])
  | Raised e =>
      (exception, ["Failed to annotate exception with source code: " ++ exc_message e])
  end.

End Annotate.

End ExceptionUtils.

(** ** More concrete inputs *)

Module Demo2.
Import Demo.
#[local] Existing Instance models.

Definition pair_out : Interface :=
  {| inputs := []; iface_outputs := [("o0", "int"); ("o1", "int")];
     output_tuple_name := None |}.

Definition interface_of2 (f : Callable) : Interface :=
  if String.prefix "pair" (fn_name f) then pair_out else interface_of f.

(** The platform of [Demo] with two-output interfaces for the functions
    whose name starts with [pair]. *)
Definition collaborators2 : Collaborators :=
  {| is_local_execution := local_modes;
     new_execution_state := fun _ => {| mode := None; working_dir := "/tmp/flyte" |};
     new_compilation_state := fun _ prefix => prefix;
     cs_with_params := fun _ prefix => prefix;
     transform_function_to_interface := interface_of2;
     remove_inputs := fun i _ => i;
     transform_interface_to_typed_interface := fun i => iface_outputs i;
     extract_task_module := fun f => fn_name f;
     istestfunction := fun _ => false;
     isnested := fun f => str_contains (fn_name f) "<locals>";
     is_functools_wrapped_module_level := fun _ => false;
     wf_compile := fun _ _ _ => OK [];
     wf_execute := fun cur wf kwargs => fn_body (wf_function wf) cur kwargs;
     get_serializable := fun _ _ wf => serialize wf;
     translate_inputs_to_literals := fun _ m _ _ => to_literals m |}.

(** [def pair() -> (int, int): return 1, 2] and a body returning one value
    too many. *)
Definition pair : Callable :=
  {| fn_name := "pair"; fn_body := fun _ _ => OK (PyTuple [PyInt 1; PyInt 2]) |}.

Definition entity2 (f : Callable) (b : ExecutionBehavior) : PythonFunctionTask :=
  {| _name := fn_name f; instantiated_in := Some "my.module";
     task_type := "python-task"; task_config := tt;
     _native_interface := interface_of2 f; python_interface := interface_of2 f;
     interface := iface_outputs (interface_of2 f);
     metadata := {| interruptible := None; cache := false |};
     _task_resolver := default_task_resolver;
     _task_function := f; _execution_mode := b;
     _node_dependency_hints := None; _wf := None |}.

Definition local_frame : FlyteContext := frame (Some LOCAL_WORKFLOW_EXECUTION) None.

Definition pair_world : World := world (entity2 pair DYNAMIC) local_frame.
Definition double_local_world : World := world (entity2 double DYNAMIC) local_frame.



Definition newline : string := String (Ascii.ascii_of_nat 10) "".

(** The function of line 23:
    [@workflow(on_failure=t2)] / [def wf(b: int = 3, a=4):] / [    return b]. *)
Definition wf_fn : ExceptionUtils.Function :=
  {| ExceptionUtils.__name__ := "wf";
     ExceptionUtils.getsourcelines :=
       ExceptionUtils.Returned
         (["@workflow(on_failure=t2)" ++ newline;
           "def wf(b: int = 3, a=4):" ++ newline;
           "    return b" ++ newline], 23%Z);
     ExceptionUtils.walk :=
       ExceptionUtils.Returned
         [ExceptionUtils.OtherNode;
          ExceptionUtils.FunctionDef "wf" 2 [("b", 7%Z); ("a", 19%Z)];
          ExceptionUtils.OtherNode] |}.

End Demo2.

(** ** Properties *)

Section Properties.
Context {Mo : Models} {Co : Collaborators}.

(** *** The workflow cache *)

Lemma create_cached (w : World) (wf : PythonFunctionWorkflow) :
  _wf (self w) = Some wf ->
  _create_and_cache_dynamic_workflow w = (OK tt, w).
Proof.
  intros Hwf. unfold _create_and_cache_dynamic_workflow, bind, get_self.
  now rewrite Hwf.
Qed.

Lemma create_result (w : World) :
  (_create_and_cache_dynamic_workflow w).1 = OK tt.
Proof.
  unfold _create_and_cache_dynamic_workflow, bind, get_self.
  destruct (_wf (self w)); reflexivity.
Qed.

Lemma create_materializes (w : World) :
  _wf (self (_create_and_cache_dynamic_workflow w).2) = Some (materialized w).
Proof.
  unfold _create_and_cache_dynamic_workflow, materialized, bind, get_self.
  destruct (_wf (self w)) eqn:Hwf; cbn; [exact Hwf | reflexivity].
Qed.

Lemma create_constructed (w : World) :
  constructed (_create_and_cache_dynamic_workflow w).2 =
  match _wf (self w) with
  | Some _ => constructed w
  | None => S (constructed w)
  end.
Proof.
  unfold _create_and_cache_dynamic_workflow, bind, get_self.
  destruct (_wf (self w)); reflexivity.
Qed.

(** Everything but [_wf] and the construction count is left alone. *)
Lemma create_frame (w : World) :
  let w' := (_create_and_cache_dynamic_workflow w).2 in
  ctx_top w' = ctx_top w /\ ctx_below w' = ctx_below w /\ calls w' = calls w /\
  name (self w') = name (self w) /\
  execution_mode (self w') = execution_mode (self w) /\
  _task_function (self w') = _task_function (self w) /\
  python_interface (self w') = python_interface (self w) /\
  interface (self w') = interface (self w).
Proof.
  unfold _create_and_cache_dynamic_workflow, bind, get_self.
  destruct (_wf (self w)); cbn; repeat split; reflexivity.
Qed.

(** C5.  Materializing the dynamic workflow is idempotent.  The first call
    caches a workflow object; any number of further calls return normally
    and leave the whole world as the first call left it, so [_wf] keeps
    referring to the object of that identity and no second workflow object
    is ever constructed. *)
Theorem create_and_cache_idempotent (w : World) (n : nat) :
  let step := fun w0 => (_create_and_cache_dynamic_workflow w0).2 in
  let w1 := step w in
  (_create_and_cache_dynamic_workflow w).1 = OK tt /\
  _wf (self w1) = Some (materialized w) /\
  _create_and_cache_dynamic_workflow w1 = (OK tt, w1) /\
  Nat.iter n step w1 = w1 /\
  option_map wf_id (_wf (self (Nat.iter n step w1))) = Some (wf_id (materialized w)) /\
  constructed (Nat.iter n step w1) <= S (constructed w).
Proof.
  intros step w1.
  assert (Hwf : _wf (self w1) = Some (materialized w)) by apply create_materializes.
  assert (Hfix : _create_and_cache_dynamic_workflow w1 = (OK tt, w1))
    by (eapply create_cached; exact Hwf).
  assert (Hiter : Nat.iter n step w1 = w1).
  { induction n as [|k IH]; [reflexivity|].
    rewrite Nat.iter_succ, IH. unfold step. now rewrite Hfix. }
  repeat split; try assumption.
  - apply create_result.
  - rewrite Hiter, Hwf. reflexivity.
  - rewrite Hiter. unfold w1, step. rewrite create_constructed.
    destruct (_wf (self w)); lia.
Qed.

(** *** Direct execution *)

Lemma call_spec (f : Callable) (kwargs : kwargs_t) (w : World) :
  call f kwargs w = (fn_body f (ctx_top w) kwargs, logged f (ctx_top w) kwargs w).
Proof. reflexivity. Qed.

(** C1.  An entity tagged [DEFAULT] executes by calling the wrapped function
    with the same keyword arguments, whatever frame is current: the result
    is the function's result, and the only effect is that one call. *)
Theorem execute_default (w : World) (kwargs : kwargs_t) :
  execution_mode (self w) = DEFAULT ->
  execute kwargs w = call (task_function (self w)) kwargs w /\
  (execute kwargs w).1 = fn_body (task_function (self w)) (ctx_top w) kwargs /\
  (execute kwargs w).2 = logged (task_function (self w)) (ctx_top w) kwargs w.
Proof.
  intros Hmode.
  assert (H : execute kwargs w = call (task_function (self w)) kwargs w).
  { unfold execute, bind, get_self. rewrite Hmode.
    rewrite bool_decide_eq_true_2 by reflexivity. reflexivity. }
  rewrite H, call_spec. repeat split.
Qed.

(** *** The local dynamic branch *)

Lemma pop_push (c : FlyteContext) (w : World) :
  pop_context (push_context c w) = w.
Proof. destruct w; reflexivity. Qed.

Lemma execute_dynamic (w : World) (kwargs : kwargs_t) :
  execution_mode (self w) = DYNAMIC ->
  execute kwargs w = dynamic_execute (task_function (self w)) kwargs w.
Proof.
  intros Hmode. unfold execute, bind, get_self. rewrite Hmode.
  rewrite bool_decide_eq_false_2 by discriminate.
  rewrite bool_decide_eq_true_2 by reflexivity. reflexivity.
Qed.

Lemma dynamic_execute_local (w : World) (f : Callable) (kwargs : kwargs_t)
    (es0 : ExecutionState) :
  execution_mode (self w) = DYNAMIC ->
  execution_state (ctx_top w) = Some es0 ->
  is_local_execution es0 = true ->
  (dynamic_execute f kwargs w).1 =
  match wf_execute (local_dynamic_frame (ctx_top w)) (materialized w) kwargs with
  | Error e => Error e
  | OK v => normalize_local (self w) (materialized w) (ctx_top w) v
  end.
Proof.
  intros Hmode Hes Hlocal.
  unfold dynamic_execute, bind, current_context, state_and.
  rewrite Hes, Hlocal.
  destruct (_create_and_cache_dynamic_workflow w) as [r w'] eqn:E.
  pose proof (create_result w) as Hr. pose proof (create_materializes w) as Hm.
  pose proof (create_frame w) as Hf. rewrite E in Hr, Hm, Hf. cbn in Hr, Hm, Hf.
  subst r. destruct Hf as (Htop & Hbelow & Hcalls & Hname & Hmode' & Hfn & Hpi & Hi).
  unfold get_self. rewrite Hmode', Hmode.
  rewrite bool_decide_eq_true_2 by reflexivity.
  unfold ret, with_context. rewrite Hm.
  unfold lift. cbn [ctx_top push_context].
  change (with_execution_state (ctx_top w) _) with (local_dynamic_frame (ctx_top w)).
  destruct (wf_execute (local_dynamic_frame (ctx_top w)) (materialized w) kwargs) as [v|e];
    [|reflexivity].
  unfold normalize_local, raise. rewrite Hname.
  destruct (is_void v); [reflexivity|].
  destruct (Nat.eqb _ 0); [reflexivity|].
  replace (outputs_as_map (self w') v) with (outputs_as_map (self w) v)
    by (unfold outputs_as_map; now rewrite Hpi).
  rewrite Hi, Hpi.
  destruct (outputs_as_map (self w) v) as [m|e]; [|reflexivity].
  destruct (translate_inputs_to_literals _ _ _ _); reflexivity.
Qed.

(** C2.  A [DYNAMIC] entity dispatched under a local-execution frame whose
    workflow yields [None] or a [VoidPromise] returns the void marker
    [VoidPromise(self.name)]; the result is therefore never a literal map,
    empty or not. *)
Theorem dynamic_local_void (w : World) (kwargs : kwargs_t) (es0 : ExecutionState)
    (v : pyobj) :
  execution_mode (self w) = DYNAMIC ->
  execution_state (ctx_top w) = Some es0 ->
  is_local_execution es0 = true ->
  wf_execute (local_dynamic_frame (ctx_top w)) (materialized w) kwargs = OK v ->
  (v = PyNone \/ exists n, v = PyVoidPromise n) ->
  (execute kwargs w).1 = OK (PyVoidPromise (name (self w))) /\
  (dynamic_execute (task_function (self w)) kwargs w).1
    = OK (PyVoidPromise (name (self w))) /\
  (forall m, (execute kwargs w).1 <> OK (PyLiteralMap m)).
Proof.
  intros Hmode Hes Hlocal Hrun Hvoid.
  assert (Hv : is_void v = true) by (destruct Hvoid as [->|[n ->]]; reflexivity).
  assert (H : (dynamic_execute (task_function (self w)) kwargs w).1
              = OK (PyVoidPromise (name (self w)))).
  { rewrite (dynamic_execute_local w _ kwargs es0 Hmode Hes Hlocal), Hrun.
    unfold normalize_local. now rewrite Hv. }
  rewrite (execute_dynamic w kwargs Hmode), H.
  repeat split; intros; discriminate.
Qed.

(** C6, as the code has it.  In the local dynamic branch a void result
    ([None] or a [VoidPromise]) is never an error: it gives the void marker
    whatever the number of declared outputs.  The reported error is the
    converse mismatch: the workflow declares no output but its body returned
    a non-void value, which raises [FlyteValueException] carrying that
    value. *)
Theorem dynamic_local_arity_mismatch (w : World) (kwargs : kwargs_t)
    (es0 : ExecutionState) (v : pyobj) :
  execution_mode (self w) = DYNAMIC ->
  execution_state (ctx_top w) = Some es0 ->
  is_local_execution es0 = true ->
  wf_execute (local_dynamic_frame (ctx_top w)) (materialized w) kwargs = OK v ->
  (is_void v = true ->
   (execute kwargs w).1 = OK (PyVoidPromise (name (self w)))) /\
  (is_void v = false ->
   iface_outputs (wf_python_interface (materialized w)) = [] ->
   (execute kwargs w).1 =
   Error (FlyteValueException v "Interface output should've been VoidPromise or None.")).
Proof.
  intros Hmode Hes Hlocal Hrun.
  rewrite (execute_dynamic w kwargs Hmode).
  rewrite (dynamic_execute_local w _ kwargs es0 Hmode Hes Hlocal), Hrun.
  unfold normalize_local. split.
  - intros ->. reflexivity.
  - intros -> ->. reflexivity.
Qed.

(** *** Dynamic compilation *)

Lemma compile_into_workflow_run (w : World) (ctx : FlyteContext) (f : Callable)
    (kwargs : kwargs_t) (g : WorkflowGraph) (reg : list (Entity * Model))
    (ws : WorkflowSpec) :
  wf_compile (compile_frame (self w) ctx) (materialized w) kwargs = OK g ->
  get_serializable (compile_frame (self w) ctx) (serialization_settings ctx)
    (with_graph (materialized w) g) = OK (reg, ws) ->
  (compile_into_workflow ctx f kwargs w).1 =
  if Nat.eqb (length (wt_nodes (template ws))) 0
  then OK (PyLiteralMap (bindings_to_literals (wt_outputs (template ws))))
  else match gather_task_templates reg [] with
       | OK tts => OK (PyDynamicJobSpec (job_spec_of ws tts))
       | Error e => Error e
       end.
Proof.
  intros Hc Hs.
  unfold compile_into_workflow, bind.
  change (get_self w) with (OK (self w), w). cbn beta iota.
  change (if bool_decide (execution_mode (self w) = DYNAMIC) then _ else _)
    with (compile_frame (self w) ctx).
  unfold with_context.
  set (w0 := push_context (compile_frame (self w) ctx) w).
  destruct (_create_and_cache_dynamic_workflow w0) as [r w'] eqn:E.
  pose proof (create_result w0) as Hr. pose proof (create_materializes w0) as Hm.
  pose proof (create_frame w0) as Hf. rewrite E in Hr, Hm, Hf. cbn in Hr, Hm, Hf.
  subst r. destruct Hf as (Htop & _).
  change (materialized w0) with (materialized w) in Hm.
  unfold compile_cached_workflow, bind, get_self. rewrite Hm.
  unfold current_context, lift. rewrite Htop, Hc.
  unfold set_wf. cbn [self _wf ctx_top].
  change {| wf_id := wf_id (materialized w); wf_function := _; wf_metadata := _;
            wf_default_metadata := _; wf_python_interface := _; wf_graph := Some g |}
    with (with_graph (materialized w) g).
  rewrite Htop, Hs. cbn [fst snd]. unfold ret, job_spec_of.
  destruct (Nat.eqb _ 0); [reflexivity|].
  destruct (gather_task_templates reg []); reflexivity.
Qed.

Lemma length_eqb_nil {A} (l : list A) : Nat.eqb (length l) 0 = true <-> l = [].
Proof. destruct l; cbn; split; intros; congruence. Qed.

Lemma length_eqb_cons {A} (l : list A) : l <> [] -> Nat.eqb (length l) 0 = false.
Proof. destruct l; cbn; congruence. Qed.

Lemma bindings_dom (l : list Binding) (m0 : gmap string Literal) :
  dom (fold_left put_binding l m0) = dom m0 ∪ list_to_set (var <$> l).
Proof.
  revert m0. induction l as [|b l IH]; intros m0; cbn.
  - set_solver.
  - rewrite IH. unfold put_binding. rewrite dom_insert_L. set_solver.
Qed.

Lemma bindings_lookup_other (l : list Binding) (m0 : gmap string Literal) (k : string) :
  k ∉ (var <$> l) ->
  fold_left put_binding l m0 !! k = m0 !! k.
Proof.
  revert m0. induction l as [|b l IH]; intros m0 Hk; cbn; [reflexivity|].
  cbn in Hk. apply not_elem_of_cons in Hk as [Hne Hk].
  rewrite IH by assumption. unfold put_binding. apply lookup_insert_ne. congruence.
Qed.

Lemma bindings_lookup_last (l1 l2 : list Binding) (b : Binding)
    (m0 : gmap string Literal) :
  var b ∉ (var <$> l2) ->
  fold_left put_binding (l1 ++ b :: l2) m0 !! var b = Some (bound_literal b).
Proof.
  intros Hk. rewrite fold_left_app. cbn.
  rewrite bindings_lookup_other by assumption. apply lookup_insert_eq.
Qed.

Lemma bindings_lookup_origin (l : list Binding) (m0 : gmap string Literal)
    (k : string) (lit : Literal) :
  fold_left put_binding l m0 !! k = Some lit ->
  m0 !! k = Some lit \/ exists b, b ∈ l /\ var b = k /\ bound_literal b = lit.
Proof.
  revert m0. induction l as [|b l IH]; intros m0 H; cbn in H; [now left|].
  apply IH in H as [H|(b' & Hin & Hv & Hl)].
  - unfold put_binding in H. destruct (decide (var b = k)) as [Heq|Hne].
    + subst k. rewrite lookup_insert_eq in H. right. exists b.
      split; [left|split; [reflexivity|unfold bound_literal; congruence]].
    + rewrite lookup_insert_ne in H by assumption. now left.
  - right. exists b'. split; [now right|now split].
Qed.

(** C3.  A dynamic compile that produces no node returns a plain literal
    map, not a job spec.  Its keys are exactly the variable names of the
    spec's bound outputs; every value is the literal of a binding of that
    name, namely of the last such binding, so with distinct names every
    bound output appears under its name with its literal. *)
Theorem compile_zero_nodes (w : World) (ctx : FlyteContext) (f : Callable)
    (kwargs : kwargs_t) (g : WorkflowGraph) (reg : list (Entity * Model))
    (ws : WorkflowSpec) :
  wf_compile (compile_frame (self w) ctx) (materialized w) kwargs = OK g ->
  get_serializable (compile_frame (self w) ctx) (serialization_settings ctx)
    (with_graph (materialized w) g) = OK (reg, ws) ->
  wt_nodes (template ws) = [] ->
  exists m : gmap string Literal,
    (compile_into_workflow ctx f kwargs w).1 = OK (PyLiteralMap m) /\
    dom m = list_to_set (var <$> wt_outputs (template ws)) /\
    (forall k lit, m !! k = Some lit ->
       exists b, b ∈ wt_outputs (template ws) /\ var b = k /\ bound_literal b = lit) /\
    (forall (l1 : list Binding) b l2, wt_outputs (template ws) = (l1 ++ b :: l2)%list ->
       var b ∉ (var <$> l2) -> m !! var b = Some (bound_literal b)) /\
    (NoDup (var <$> wt_outputs (template ws)) ->
       forall b, b ∈ wt_outputs (template ws) -> m !! var b = Some (bound_literal b)).
Proof.
  intros Hc Hs Hnil.
  exists (bindings_to_literals (wt_outputs (template ws))).
  assert (Hlast : forall (l1 : list Binding) b l2,
            wt_outputs (template ws) = (l1 ++ b :: l2)%list ->
            var b ∉ (var <$> l2) ->
            bindings_to_literals (wt_outputs (template ws)) !! var b
            = Some (bound_literal b)).
  { intros l1 b l2 -> Hk. now apply bindings_lookup_last. }
  split; [|split; [|split; [|split]]].
  - rewrite (compile_into_workflow_run w ctx f kwargs g reg ws Hc Hs).
    now rewrite (proj2 (length_eqb_nil _) Hnil).
  - unfold bindings_to_literals. rewrite bindings_dom. set_solver.
  - intros k lit H. apply bindings_lookup_origin in H as [H|H]; [|exact H].
    now rewrite lookup_empty in H.
  - exact Hlast.
  - intros Hnd b Hin. apply list_elem_of_split in Hin as (l1 & l2 & Heq).
    apply (Hlast l1 b l2 Heq).
    rewrite Heq, fmap_app, fmap_cons in Hnd.
    apply NoDup_app in Hnd as (_ & _ & Hnd).
    now apply NoDup_cons in Hnd as [Hnd _].
Qed.

(** C4.  A dynamic compile that produces a non-empty node list emits, once
    the registry walk has collected the task templates, a job spec whose
    [min_successes] is the number of produced nodes and which carries exactly
    the produced nodes, the spec's outputs, the sub-workflows already in the
    spec and the collected templates; and any job spec it returns is of that
    form. *)
Theorem compile_nonempty_nodes (w : World) (ctx : FlyteContext) (f : Callable)
    (kwargs : kwargs_t) (g : WorkflowGraph) (reg : list (Entity * Model))
    (ws : WorkflowSpec) :
  wf_compile (compile_frame (self w) ctx) (materialized w) kwargs = OK g ->
  get_serializable (compile_frame (self w) ctx) (serialization_settings ctx)
    (with_graph (materialized w) g) = OK (reg, ws) ->
  wt_nodes (template ws) <> [] ->
  (forall tts, gather_task_templates reg [] = OK tts ->
     (compile_into_workflow ctx f kwargs w).1 = OK (PyDynamicJobSpec (job_spec_of ws tts))) /\
  (forall s, (compile_into_workflow ctx f kwargs w).1 = OK (PyDynamicJobSpec s) ->
     min_successes s = length (wt_nodes (template ws)) /\
     min_successes s = length (nodes s) /\
     nodes s = wt_nodes (template ws) /\
     outputs s = wt_outputs (template ws) /\
     subworkflows s = sub_workflows ws /\
     gather_task_templates reg [] = OK (tasks s)).
Proof.
  intros Hc Hs Hne.
  rewrite (compile_into_workflow_run w ctx f kwargs g reg ws Hc Hs).
  rewrite (length_eqb_cons _ Hne). split.
  - intros tts ->. reflexivity.
  - intros s H. destruct (gather_task_templates reg []) as [tts|e]; [|discriminate].
    injection H as <-. cbn. repeat split; reflexivity.
Qed.

(** *** The registry walk *)

Lemma gather_app (l1 l2 : list (Entity * Model)) (tts : list TaskTemplate) :
  gather_task_templates (l1 ++ l2) tts =
  match gather_task_templates l1 tts with
  | OK tts' => gather_task_templates l2 tts'
  | Error e => Error e
  end.
Proof.
  revert tts. induction l1 as [|[e m] l1 IH]; intros tts; cbn; [reflexivity|].
  destruct (negb (isinstance_Task e) && negb (isinstance_TaskSpec e)); [apply IH|].
  destruct (isinstance_ReferenceTask e); [reflexivity|].
  destruct m; [apply IH|reflexivity].
Qed.

Lemma gather_skip (e : Entity) (m : Model) (pre post : list (Entity * Model))
    (tts : list TaskTemplate) :
  isinstance_Task e = false -> isinstance_TaskSpec e = false ->
  gather_task_templates (pre ++ (e, m) :: post) tts =
  gather_task_templates (pre ++ post) tts.
Proof.
  intros Ht Hs. rewrite !gather_app.
  destruct (gather_task_templates pre tts); [|reflexivity].
  cbn. now rewrite Ht, Hs.
Qed.

Lemma gather_reference_task (e : Entity) (m : Model) (post : list (Entity * Model))
    (tts : list TaskTemplate) :
  entity_class e = ReferenceTaskClass ->
  gather_task_templates ((e, m) :: post) tts =
  Error (ValueError "Reference tasks are currently unsupported within dynamic tasks").
Proof.
  intros Hc. cbn. unfold isinstance_Task, isinstance_TaskSpec, isinstance_ReferenceTask.
  now rewrite Hc.
Qed.

Lemma gather_rejects (reg : list (Entity * Model)) (e : Entity) (m : Model)
    (tts : list TaskTemplate) :
  (e, m) ∈ reg -> entity_class e = ReferenceTaskClass ->
  exists err, gather_task_templates reg tts = Error err.
Proof.
  intros Hin Hc. apply list_elem_of_split in Hin as (pre & post & ->).
  rewrite gather_app. destruct (gather_task_templates pre tts) as [tts'|err].
  - rewrite (gather_reference_task e m post tts' Hc). eauto.
  - eauto.
Qed.

(** C8.  A registry entry whose entity is a reference task makes the
    registry walk fail: no dynamic compile whose registry holds one returns
    a job spec, and whenever the walk is reached (the node list is not
    empty) the compile raises; the exception is the [ValueError] for
    reference tasks as soon as the entries before it are accepted.  An entry
    whose entity is a launch plan is skipped: the walk behaves as if it were
    not there. *)
Theorem reference_task_rejected (w : World) (ctx : FlyteContext) (f : Callable)
    (kwargs : kwargs_t) (g : WorkflowGraph) (reg : list (Entity * Model))
    (ws : WorkflowSpec) (e : Entity) (m : Model) :
  wf_compile (compile_frame (self w) ctx) (materialized w) kwargs = OK g ->
  get_serializable (compile_frame (self w) ctx) (serialization_settings ctx)
    (with_graph (materialized w) g) = OK (reg, ws) ->
  (e, m) ∈ reg ->
  entity_class e = ReferenceTaskClass ->
  (forall s, (compile_into_workflow ctx f kwargs w).1 <> OK (PyDynamicJobSpec s)) /\
  (wt_nodes (template ws) <> [] ->
     exists err, (compile_into_workflow ctx f kwargs w).1 = Error err) /\
  (wt_nodes (template ws) <> [] ->
     forall pre post tts, reg = (pre ++ (e, m) :: post)%list ->
       gather_task_templates pre [] = OK tts ->
       (compile_into_workflow ctx f kwargs w).1 =
       Error (ValueError "Reference tasks are currently unsupported within dynamic tasks")) /\
  (forall lp ml pre post tts, entity_class lp = LaunchPlanClass ->
     gather_task_templates (pre ++ (lp, ml) :: post) tts =
     gather_task_templates (pre ++ post) tts).
Proof.
  intros Hc Hs Hin Hcls.
  rewrite (compile_into_workflow_run w ctx f kwargs g reg ws Hc Hs).
  destruct (gather_rejects reg e m [] Hin Hcls) as [err Herr].
  split; [|split; [|split]].
  - intros s. destruct (Nat.eqb _ 0); [discriminate|]. rewrite Herr. discriminate.
  - intros Hne. rewrite (length_eqb_cons _ Hne), Herr. eauto.
  - intros Hne pre post tts -> Hpre. rewrite (length_eqb_cons _ Hne).
    rewrite gather_app, Hpre, (gather_reference_task e m post tts Hcls). reflexivity.
  - intros lp ml pre post tts Hlp. apply gather_skip.
    + unfold isinstance_Task. now rewrite Hlp.
    + unfold isinstance_TaskSpec. now rewrite Hlp.
Qed.

(** *** Construction *)

(** C7.  Dependency hints are accepted exactly on [DYNAMIC] entities.  With
    hints given and a mode other than [DYNAMIC] the constructor raises,
    whatever the other arguments, and for a function that passes the
    earlier construction checks the exception is the [ValueError] about
    [node_dependency_hints]; a [DYNAMIC] entity is constructed, with or
    without hints, and keeps the hints it was given. *)
Theorem init_hints_iff_dynamic (task_config : TaskConfig) (f : Callable)
    (task_type : string) (ignore_input_vars : option (list string))
    (mode : ExecutionBehavior) (task_resolver : option Resolver)
    (hints : option (list Entity)) (kw : BaseKwargs) :
  module_level f task_resolver = true ->
  let built := __init__ task_config (Some f) task_type ignore_input_vars mode
                 task_resolver hints kw in
  (hints <> None -> mode <> DYNAMIC ->
     built = Error (ValueError node_dependency_hints_msg)) /\
  (hints <> None -> mode <> DYNAMIC ->
     forall fo res, exists err,
       __init__ task_config fo task_type ignore_input_vars mode res hints kw
       = Error err) /\
  (mode = DYNAMIC ->
     exists t, built = OK t /\ node_dependency_hints t = hints /\
               execution_mode t = DYNAMIC /\ _wf t = None) /\
  ((exists t, built = OK t) <-> (hints = None \/ mode = DYNAMIC)).
Proof.
  intros Hlevel built.
  assert (Hbuilt : built =
            if bool_decide (hints <> None) && bool_decide (mode <> DYNAMIC)
            then Error (ValueError node_dependency_hints_msg)
            else OK {| _name := extract_task_module f;
                       instantiated_in := kw_instantiated_in kw;
                       task_type := task_type; task_config := task_config;
                       _native_interface := transform_function_to_interface f;
                       python_interface :=
                         remove_inputs (transform_function_to_interface f) ignore_input_vars;
                       interface :=
                         transform_interface_to_typed_interface
                           (remove_inputs (transform_function_to_interface f)
                              ignore_input_vars);
                       metadata := kw_metadata kw;
                       _task_resolver := match task_resolver with
                                         | Some r => r
                                         | None => default_task_resolver
                                         end;
                       _task_function := f; _execution_mode := mode;
                       _node_dependency_hints := hints; _wf := None |}).
  { unfold built, __init__. unfold module_level in Hlevel.
    apply negb_true_iff in Hlevel.
    now rewrite Hlevel. }
  split; [|split; [|split]].
  - intros Hh Hm. rewrite Hbuilt.
    now rewrite !bool_decide_eq_true_2 by assumption.
  - intros Hh Hm fo res. unfold __init__.
    destruct fo as [f'|]; [|eauto].
    destruct (is_default_resolver _ && _); [eauto|].
    rewrite !bool_decide_eq_true_2 by assumption. cbn. eauto.
  - intros ->. rewrite Hbuilt.
    rewrite (bool_decide_eq_false_2 (DYNAMIC <> DYNAMIC)) by (intros H; now apply H).
    rewrite andb_false_r. eexists. repeat split; reflexivity.
  - rewrite Hbuilt. split.
    + intros [t Ht]. destruct hints as [h|]; [|now left]. right.
      destruct (decide (mode = DYNAMIC)) as [|Hne]; [assumption|].
      rewrite !bool_decide_eq_true_2 in Ht by (assumption || discriminate).
      discriminate.
    + intros [->| ->].
      * rewrite (bool_decide_eq_false_2 (None <> None)) by (intros H; now apply H).
        cbn. eauto.
      * rewrite (bool_decide_eq_false_2 (DYNAMIC <> DYNAMIC)) by (intros H; now apply H).
        rewrite andb_false_r. eauto.
Qed.

(** *** The eager bridge *)

Lemma with_context_call (c : FlyteContext) (f : Callable) (kwargs : kwargs_t)
    (w : World) :
  with_context c (call f kwargs) w = (fn_body f c kwargs, logged f c kwargs w).
Proof. destruct w; reflexivity. Qed.

Lemma run_with_backend_no_client (ctx : FlyteContext) (kwargs : kwargs_t) (w : World) :
  flyte_client ctx = None ->
  run_with_backend ctx kwargs w = (Error (AssertionError remote_client_msg), w).
Proof. intros H. unfold run_with_backend. now rewrite H. Qed.

Lemma run_with_backend_new_queue (ctx : FlyteContext) (kwargs : kwargs_t) (w : World)
    (es : ExecutionState) (remote : FlyteRemote) :
  execution_state ctx = Some es ->
  flyte_client ctx = Some remote ->
  worker_queue ctx = None ->
  run_with_backend ctx kwargs w =
  (fn_body (task_function (self w)) (backend_frame ctx es remote) kwargs,
   logged (task_function (self w)) (backend_frame ctx es remote) kwargs w).
Proof.
  intros Hes Hc Hq. unfold run_with_backend, cast_execution_state.
  rewrite Hc, Hes, Hq. unfold bind, ret, get_self.
  apply with_context_call.
Qed.

Lemma run_with_backend_kept_queue (ctx : FlyteContext) (kwargs : kwargs_t) (w : World)
    (es : ExecutionState) (remote : FlyteRemote) (wq : WorkerQueue) :
  execution_state ctx = Some es ->
  flyte_client ctx = Some remote ->
  worker_queue ctx = Some wq ->
  run_with_backend ctx kwargs w =
  (fn_body (task_function (self w))
     (with_execution_state ctx (es_with_params es EAGER_EXECUTION)) kwargs,
   logged (task_function (self w))
     (with_execution_state ctx (es_with_params es EAGER_EXECUTION)) kwargs w).
Proof.
  intros Hes Hc Hq. unfold run_with_backend, cast_execution_state.
  rewrite Hc, Hes, Hq. unfold bind, ret, get_self.
  apply with_context_call.
Qed.

Lemma async_execute_nonlocal (w : World) (kwargs : kwargs_t) (es : ExecutionState) :
  execution_state (ctx_top w) = Some es ->
  is_local_execution es = false ->
  async_execute [] kwargs w =
  (match (run_with_backend (ctx_top w) kwargs w).1 with
   | OK _ => OK PyNone
   | Error e => Error e
   end,
   (run_with_backend (ctx_top w) kwargs w).2).
Proof.
  intros Hes Hl. unfold async_execute, assert_not_args, bind, ret, current_context,
    cast_execution_state.
  rewrite Hes. unfold ret, get_self. cbn beta iota zeta. rewrite Hl. cbn [negb].
  destruct (run_with_backend (ctx_top w) kwargs w) as [[v|e] w']; reflexivity.
Qed.

Lemma async_execute_local (w : World) (kwargs : kwargs_t) (es : ExecutionState) :
  execution_state (ctx_top w) = Some es ->
  is_local_execution es = true ->
  async_execute [] kwargs w =
  (fn_body (task_function (self w)) (eager_local_frame (ctx_top w) es) kwargs,
   logged (task_function (self w)) (eager_local_frame (ctx_top w) es) kwargs w).
Proof.
  intros Hes Hl. unfold async_execute, assert_not_args, bind, ret, current_context,
    cast_execution_state, get_self.
  rewrite Hes. unfold ret, get_self. cbn beta iota zeta. rewrite Hl. cbn [negb].
  apply with_context_call.
Qed.

(** C9.  An eager entity dispatched under a non-local frame with no remote
    client raises the [AssertionError] about the missing remote client and
    leaves the world as it was, so the task body has not been called.  With
    a remote client and no worker queue in the frame, the body is called
    exactly once, under a frame whose worker queue is a new queue bound to
    that client (and whose mode is [EAGER_EXECUTION]); a queue already in
    the frame is kept. *)
Theorem eager_backend_dispatch (w : World) (kwargs : kwargs_t) (es : ExecutionState) :
  execution_state (ctx_top w) = Some es ->
  is_local_execution es = false ->
  (flyte_client (ctx_top w) = None ->
     run_with_backend (ctx_top w) kwargs w
       = (Error (AssertionError remote_client_msg), w) /\
     async_execute [] kwargs w = (Error (AssertionError remote_client_msg), w) /\
     calls (async_execute [] kwargs w).2 = calls w) /\
  (forall remote, flyte_client (ctx_top w) = Some remote ->
     worker_queue (ctx_top w) = None ->
     let fr := backend_frame (ctx_top w) es remote in
     worker_queue fr = Some (new_WorkerQueue remote) /\
     option_map wq_remote (worker_queue fr) = Some remote /\
     option_map mode (execution_state fr) = Some (Some EAGER_EXECUTION) /\
     run_with_backend (ctx_top w) kwargs w
       = (fn_body (task_function (self w)) fr kwargs,
          logged (task_function (self w)) fr kwargs w) /\
     calls (async_execute [] kwargs w).2
       = (calls w ++ [Invoked (fn_name (task_function (self w))) fr kwargs])%list) /\
  (forall remote wq, flyte_client (ctx_top w) = Some remote ->
     worker_queue (ctx_top w) = Some wq ->
     let fr := with_execution_state (ctx_top w) (es_with_params es EAGER_EXECUTION) in
     worker_queue fr = Some wq /\
     run_with_backend (ctx_top w) kwargs w
       = (fn_body (task_function (self w)) fr kwargs,
          logged (task_function (self w)) fr kwargs w)).
Proof.
  intros Hes Hl. rewrite (async_execute_nonlocal w kwargs es Hes Hl).
  split; [|split].
  - intros Hc. rewrite (run_with_backend_no_client _ kwargs w Hc). repeat split.
  - intros remote Hc Hq fr.
    rewrite (run_with_backend_new_queue _ kwargs w es remote Hes Hc Hq).
    repeat split.
  - intros remote wq Hc Hq fr.
    rewrite (run_with_backend_kept_queue _ kwargs w es remote wq Hes Hc Hq).
    split; [exact Hq|reflexivity].
Qed.

(** C10.  The eager [async_execute] under a non-local frame awaits
    [run_with_backend] and returns [None]: whatever value the task function
    produced under the backend frame is dropped (an exception still
    propagates).  Under a local frame it returns the task function's own
    result, computed under the [EAGER_LOCAL_EXECUTION] frame. *)
Theorem eager_async_execute_result (w : World) (kwargs : kwargs_t) (es : ExecutionState) :
  execution_state (ctx_top w) = Some es ->
  (is_local_execution es = false ->
     (forall v w', run_with_backend (ctx_top w) kwargs w = (OK v, w') ->
        async_execute [] kwargs w = (OK PyNone, w')) /\
     (forall e w', run_with_backend (ctx_top w) kwargs w = (Error e, w') ->
        async_execute [] kwargs w = (Error e, w')) /\
     (forall remote v, flyte_client (ctx_top w) = Some remote ->
        worker_queue (ctx_top w) = None ->
        fn_body (task_function (self w)) (backend_frame (ctx_top w) es remote) kwargs
          = OK v ->
        (async_execute [] kwargs w).1 = OK PyNone /\
        calls (async_execute [] kwargs w).2
          = (calls w ++ [Invoked (fn_name (task_function (self w)))
                           (backend_frame (ctx_top w) es remote) kwargs])%list)) /\
  (is_local_execution es = true ->
     (async_execute [] kwargs w).1
       = fn_body (task_function (self w)) (eager_local_frame (ctx_top w) es) kwargs /\
     (async_execute [] kwargs w).2
       = logged (task_function (self w)) (eager_local_frame (ctx_top w) es) kwargs w).
Proof.
  intros Hes. split.
  - intros Hl. rewrite (async_execute_nonlocal w kwargs es Hes Hl).
    split; [|split].
    + intros v w' ->. reflexivity.
    + intros e w' ->. reflexivity.
    + intros remote v Hc Hq Hv.
      rewrite (run_with_backend_new_queue _ kwargs w es remote Hes Hc Hq).
      cbn [fst snd]. rewrite Hv. split; reflexivity.
  - intros Hl. rewrite (async_execute_local w kwargs es Hes Hl). split; reflexivity.
Qed.

End Properties.

(** ** The properties on the concrete platform *)

Import Demo.
#[local] Existing Instance models.
#[local] Existing Instance collaborators.

Lemma execute_default_double :
  execution_mode (self double_world) = DEFAULT /\
  (execute kw3 double_world).1 = OK (PyInt 6).
Proof.
  split; [reflexivity|].
  destruct (execute_default (Co := collaborators) double_world kw3 eq_refl) as (_ & H & _).
  rewrite H. reflexivity.
Defined.

Lemma dynamic_local_void_gen :
  is_local_execution local_state = true /\
  (execute no_kwargs void_world).1 = OK (PyVoidPromise "my.module.gen").
Proof.
  split; [reflexivity|].
  apply (dynamic_local_void (Co := collaborators) void_world no_kwargs local_state PyNone);
    [reflexivity | reflexivity | reflexivity | reflexivity | left; reflexivity].
Defined.

Lemma void_result_not_reported :
  execution_mode (self void_world) = DYNAMIC /\
  state_and (ctx_top void_world) is_local_execution = true /\
  wf_execute (local_dynamic_frame (ctx_top void_world)) (materialized void_world)
    no_kwargs = OK PyNone /\
  length (iface_outputs (wf_python_interface (materialized void_world))) = 1 /\
  length (iface_outputs (python_interface (self void_world))) = 1 /\
  (execute no_kwargs void_world).1 = OK (PyVoidPromise "my.module.gen") /\
  ~ (exists e, (execute no_kwargs void_world).1 = Error e).
Proof.
  repeat split; try reflexivity.
  intros [e H]. vm_compute in H. discriminate H.
Qed.

Lemma dynamic_local_arity_mismatch_log :
  is_local_execution local_state = true /\
  (execute no_kwargs chatty_world).1 =
  Error (FlyteValueException (PyInt 1)
           "Interface output should've been VoidPromise or None.").
Proof.
  split; [reflexivity|].
  apply (dynamic_local_arity_mismatch (Co := collaborators) chatty_world no_kwargs local_state (PyInt 1));
    reflexivity.
Defined.

Lemma compile_zero_nodes_gen_const :
  exists m : gmap string Z,
    (compile_into_workflow (ctx_top gen_const_world) (silent "gen_const") no_kwargs
       gen_const_world).1 = OK (PyLiteralMap m) /\
    dom m = {[ "o0" ]} /\
    m !! "o0" = Some 7%Z.
Proof.
  destruct (compile_zero_nodes (Co := collaborators) gen_const_world (ctx_top gen_const_world)
              (silent "gen_const") no_kwargs [] [] const_spec eq_refl eq_refl eq_refl)
    as (m & Hrun & Hdom & _ & Hlast & _).
  exists m. split; [exact Hrun|]. split.
  - etrans; [exact Hdom|]. cbn. apply (right_id_L ∅ (∪)).
  - apply (Hlast [] o0_is_7 [] eq_refl).
    cbn. apply not_elem_of_nil.
Defined.

Lemma compile_nonempty_nodes_gen :
  (compile_into_workflow (ctx_top gen_world) (silent "gen") no_kwargs gen_world).1 =
  OK (PyDynamicJobSpec
        {| min_successes := 3; tasks := ["inc"]; nodes := ["dn0"; "dn1"; "dn2"];
           outputs := [o0_is_7]; subworkflows := ["sub"] |}).
Proof.
  destruct (compile_nonempty_nodes (Co := collaborators) gen_world (ctx_top gen_world) (silent "gen")
              no_kwargs [] gen_registry gen_spec eq_refl eq_refl)
    as (Hemit & _); [discriminate|].
  apply (Hemit ["inc"]). reflexivity.
Defined.

Lemma reference_task_rejected_gen_ref :
  entity_class remote_task = ReferenceTaskClass /\
  (compile_into_workflow (ctx_top gen_ref_world) (silent "gen_ref") no_kwargs
     gen_ref_world).1 =
  Error (ValueError "Reference tasks are currently unsupported within dynamic tasks").
Proof.
  split; [reflexivity|].
  destruct (reference_task_rejected (Co := collaborators) gen_ref_world (ctx_top gen_ref_world)
              (silent "gen_ref") no_kwargs [] ref_registry ref_spec
              remote_task (OtherModel "NoneType") eq_refl eq_refl)
    as (_ & _ & Hfirst & _); [right; left | reflexivity |].
  eapply (Hfirst _ [inc_entry] []); reflexivity.
  Unshelve. discriminate.
Defined.

Lemma init_hints_iff_dynamic_double :
  module_level double None = true /\
  __init__ tt (Some double) "python-task" None DEFAULT None (Some [inc_task]) base_kwargs
    = Error (ValueError node_dependency_hints_msg) /\
  (exists t, __init__ tt (Some double) "python-task" None DYNAMIC None (Some [inc_task])
               base_kwargs = OK t /\
             node_dependency_hints t = Some [inc_task]).
Proof.
  split; [reflexivity|]. split.
  - apply (init_hints_iff_dynamic (Co := collaborators) tt double "python-task" None DEFAULT None
             (Some [inc_task]) base_kwargs eq_refl); discriminate.
  - destruct (init_hints_iff_dynamic (Co := collaborators) tt double "python-task" None DYNAMIC None
                (Some [inc_task]) base_kwargs eq_refl) as (_ & _ & Hdyn & _).
    destruct (Hdyn eq_refl) as (t & Ht & Hh & _). exists t. split; assumption.
Defined.

Lemma eager_backend_dispatch_double :
  is_local_execution backend_state = false /\
  async_execute [] kw3 (eager_world None)
    = (Error (AssertionError remote_client_msg), eager_world None) /\
  (run_with_backend (ctx_top (eager_world (Some "admin"))) kw3
     (eager_world (Some "admin"))).1 = OK (PyInt 6) /\
  calls (async_execute [] kw3 (eager_world (Some "admin"))).2 =
  [Invoked "double"
     {| execution_state := Some {| mode := Some EAGER_EXECUTION;
                                   working_dir := "/tmp/flyte" |};
        compilation_state := None;
        flyte_client := Some "admin";
        worker_queue := Some {| wq_remote := "admin" |};
        serialization_settings := tt |} kw3].
Proof.
  split; [reflexivity|]. split; [|split].
  - destruct (eager_backend_dispatch (Co := collaborators) (eager_world None) kw3 backend_state
                eq_refl eq_refl) as (Hnone & _).
    apply (Hnone eq_refl).
  - destruct (eager_backend_dispatch (Co := collaborators) (eager_world (Some "admin")) kw3 backend_state
                eq_refl eq_refl) as (_ & Hnew & _).
    destruct (Hnew "admin" eq_refl eq_refl) as (_ & _ & _ & Hrun & _).
    rewrite Hrun. reflexivity.
  - destruct (eager_backend_dispatch (Co := collaborators) (eager_world (Some "admin")) kw3 backend_state
                eq_refl eq_refl) as (_ & Hnew & _).
    destruct (Hnew "admin" eq_refl eq_refl) as (_ & _ & _ & _ & Hcalls).
    rewrite Hcalls. reflexivity.
Defined.

Lemma eager_async_execute_result_double :
  execution_state (ctx_top (eager_world (Some "admin"))) = Some backend_state /\
  fn_body double (backend_frame (ctx_top (eager_world (Some "admin"))) backend_state
                    "admin") kw3 = OK (PyInt 6) /\
  (async_execute [] kw3 (eager_world (Some "admin"))).1 = OK PyNone.
Proof.
  split; [reflexivity|]. split; [reflexivity|].
  destruct (eager_async_execute_result (Co := collaborators) (eager_world (Some "admin")) kw3 backend_state
              eq_refl) as (Hremote & _).
  destruct (Hremote eq_refl) as (_ & _ & Hdrop).
  apply (Hdrop "admin" (PyInt 6) eq_refl eq_refl eq_refl).
Defined.

(** ** Further properties of the module *)

Section StackDiscipline.
Context {Mo : Models} {Co : Collaborators}.






















End StackDiscipline.

Section Dispatch.
Context {Mo : Models} {Co : Collaborators}.



(** *** Output normalization of the local dynamic branch *)

Lemma execute_local_nonvoid (w : World) (kwargs : kwargs_t) (es0 : ExecutionState)
    (v : pyobj) :
  execution_mode (self w) = DYNAMIC ->
  execution_state (ctx_top w) = Some es0 ->
  is_local_execution es0 = true ->
  wf_execute (local_dynamic_frame (ctx_top w)) (materialized w) kwargs = OK v ->
  is_void v = false ->
  iface_outputs (wf_python_interface (materialized w)) <> [] ->
  (execute kwargs w).1 =
  match outputs_as_map (self w) v with
  | OK m => literal_map_of (self w) (ctx_top w) m
  | Error e => Error e
  end.
Proof.
  intros Hmode Hes Hl Hrun Hv Hout.
  rewrite (execute_dynamic w kwargs Hmode).
  rewrite (dynamic_execute_local w _ kwargs es0 Hmode Hes Hl), Hrun.
  unfold normalize_local, literal_map_of. rewrite Hv.
  rewrite (length_eqb_cons _ Hout).
  destruct (outputs_as_map (self w) v); reflexivity.
Qed.

Lemma zip_outputs_ok (items : list pyobj) (names : list string) (i : nat)
    (acc : gmap string pyobj) :
  i + length items <= length names ->
  exists m, zip_outputs names i items acc = OK m /\
    dom m = dom acc ∪ list_to_set (take (length items) (drop i names)) /\
    (forall k, k ∉ take (length items) (drop i names) -> m !! k = acc !! k) /\
    (NoDup names -> forall j n x,
       names !! (i + j) = Some n -> items !! j = Some x -> m !! n = Some x).
Proof.
  revert i acc. induction items as [|x rest IH]; intros i acc Hlen; cbn in *.
  - exists acc. split; [reflexivity|]. split; [set_solver|]. split.
    + intros k _. reflexivity.
    + intros _ j n x _ Hx. now rewrite lookup_nil in Hx.
  - destruct (names !! i) as [n|] eqn:Hn;
      [|apply lookup_ge_None in Hn; lia].
    destruct (IH (S i) (<[n:=x]> acc)) as (m & Hm & Hdom & Hother & Hzip); [lia|].
    rewrite (drop_S names n i Hn). cbn [take].
    exists m. split; [exact Hm|]. split; [|split].
    + rewrite Hdom, dom_insert_L. set_solver.
    + intros k Hk. apply not_elem_of_cons in Hk as [Hne Hk].
      rewrite Hother by assumption. now apply lookup_insert_ne.
    + intros Hnd j n' x' Hn' Hx'. destruct j as [|j]; cbn in Hx'.
      * injection Hx' as <-. rewrite Nat.add_0_r, Hn in Hn'. injection Hn' as <-.
        rewrite Hother; [apply lookup_insert_eq|].
        intros Hin. apply elem_of_take in Hin as (j & Hj & _).
        rewrite lookup_drop in Hj.
        pose proof (NoDup_lookup names i (S i + j) n Hnd Hn Hj). lia.
      * apply (Hzip Hnd j n' x'); [|exact Hx'].
        now replace (S i + j) with (i + S j) by lia.
Qed.


(** X5.  With exactly one declared output, the local dynamic branch binds
    the whole non-void result to that name -- a tuple included -- unless the
    interface has an output tuple name and the result is a tuple: then only
    the first element is bound and the others are dropped, and an empty
    tuple is an [IndexError]. *)
Theorem dynamic_local_single_output (w : World) (kwargs : kwargs_t)
    (es0 : ExecutionState) (v : pyobj) (n : string) :
  execution_mode (self w) = DYNAMIC ->
  execution_state (ctx_top w) = Some es0 ->
  is_local_execution es0 = true ->
  wf_execute (local_dynamic_frame (ctx_top w)) (materialized w) kwargs = OK v ->
  is_void v = false ->
  iface_outputs (wf_python_interface (materialized w)) <> [] ->
  output_names (self w) = [n] ->
  (tuple_convention (self w) && is_tuple v = false ->
     (execute kwargs w).1 = literal_map_of (self w) (ctx_top w) {[ n := v ]}) /\
  (tuple_convention (self w) = true -> forall x rest, v = PyTuple (x :: rest) ->
     (execute kwargs w).1 = literal_map_of (self w) (ctx_top w) {[ n := x ]}) /\
  (tuple_convention (self w) = true -> v = PyTuple [] ->
     (execute kwargs w).1 = Error (IndexError "tuple index out of range")).
Proof.
  intros Hmode Hes Hl Hrun Hv Hout Hnames.
  rewrite (execute_local_nonvoid w kwargs es0 v Hmode Hes Hl Hrun Hv Hout).
  unfold outputs_as_map. fold (output_names (self w)). rewrite Hnames. cbn [length Nat.eqb].
  fold (tuple_convention (self w)).
  split; [|split].
  - intros ->. reflexivity.
  - intros -> x rest ->. reflexivity.
  - intros -> ->. reflexivity.
Qed.

(** X6.  With a number of declared outputs other than one, a tuple of at
    most that many results is bound position by position: the output map
    holds exactly the first [len(results)] declared names, each with the
    result at its position.  Declared names beyond the tuple's length are
    left out without an error. *)
Theorem dynamic_local_positional_outputs (w : World) (kwargs : kwargs_t)
    (es0 : ExecutionState) (items : list pyobj) :
  execution_mode (self w) = DYNAMIC ->
  execution_state (ctx_top w) = Some es0 ->
  is_local_execution es0 = true ->
  wf_execute (local_dynamic_frame (ctx_top w)) (materialized w) kwargs
    = OK (PyTuple items) ->
  iface_outputs (wf_python_interface (materialized w)) <> [] ->
  length (output_names (self w)) <> 1 ->
  length items <= length (output_names (self w)) ->
  NoDup (output_names (self w)) ->
  exists m : gmap string pyobj,
    (execute kwargs w).1 = literal_map_of (self w) (ctx_top w) m /\
    dom m = list_to_set (take (length items) (output_names (self w))) /\
    (forall i n x, output_names (self w) !! i = Some n -> items !! i = Some x ->
       m !! n = Some x).
Proof.
  intros Hmode Hes Hl Hrun Hout Hne Hlen Hnd.
  rewrite (execute_local_nonvoid w kwargs es0 _ Hmode Hes Hl Hrun eq_refl Hout).
  unfold outputs_as_map. fold (output_names (self w)).
  rewrite (proj2 (Nat.eqb_neq _ _) Hne). cbn [py_iter].
  destruct (zip_outputs_ok items (output_names (self w)) 0 ∅)
    as (m & Hm & Hdom & _ & Hzip); [exact Hlen|].
  rewrite Hm. exists m. split; [reflexivity|]. split.
  - rewrite Hdom, drop_0, dom_empty_L. apply (left_id_L ∅ (∪)).
  - intros i n x Hn Hx. exact (Hzip Hnd i n x Hn Hx).
Qed.


End Dispatch.

Section Compilation.
Context {Mo : Models} {Co : Collaborators}.

Lemma gather_step_accepted (e : Entity) (m : Model) (rest : list (Entity * Model))
    (tts : list TaskTemplate) :
  entry_accepted (e, m) = true ->
  gather_task_templates ((e, m) :: rest) tts =
  gather_task_templates rest
    (tts ++ from_option (fun x => [x]) [] (entry_template (e, m)))%list.
Proof.
  unfold entry_accepted, entry_template, is_task_entry. cbn.
  destruct (isinstance_Task e), (isinstance_TaskSpec e); cbn;
    try (rewrite app_nil_r; reflexivity);
    destruct (isinstance_ReferenceTask e); cbn; try discriminate;
    destruct m; cbn; try discriminate; reflexivity.
Qed.

Lemma gather_step_rejected (e : Entity) (m : Model) (rest : list (Entity * Model))
    (tts : list TaskTemplate) :
  entry_accepted (e, m) = false ->
  exists err, gather_task_templates ((e, m) :: rest) tts = Error err.
Proof.
  unfold entry_accepted, is_task_entry. cbn.
  destruct (isinstance_Task e), (isinstance_TaskSpec e); cbn; try discriminate;
    destruct (isinstance_ReferenceTask e); cbn; eauto;
    destruct m; cbn; try discriminate; eauto.
Qed.

Lemma gather_all_accepted (reg : list (Entity * Model)) (tts : list TaskTemplate) :
  forallb entry_accepted reg = true ->
  gather_task_templates reg tts = OK (tts ++ omap entry_template reg)%list.
Proof.
  revert tts. induction reg as [|[e m] reg IH]; intros tts H.
  - cbn. now rewrite app_nil_r.
  - cbn [forallb] in H. apply andb_prop in H as [Ha Hr].
    rewrite (gather_step_accepted e m reg tts Ha), (IH _ Hr).
    destruct (entry_template (e, m)) as [tpl|] eqn:Ht; cbn; rewrite Ht.
    + now rewrite <- app_assoc.
    + now rewrite app_nil_r.
Qed.

Lemma gather_some_rejected (reg : list (Entity * Model)) (tts : list TaskTemplate) :
  forallb entry_accepted reg = false ->
  exists err, gather_task_templates reg tts = Error err.
Proof.
  revert tts. induction reg as [|[e m] reg IH]; intros tts H; [discriminate|].
  cbn [forallb] in H. destruct (entry_accepted (e, m)) eqn:Ha.
  - rewrite (gather_step_accepted e m reg tts Ha). apply IH. exact H.
  - apply gather_step_rejected. exact Ha.
Qed.

(** X8.  The registry walk succeeds exactly when every entry is accepted
    (it is not a task, or it is a task that is no reference task and whose
    serialized form is a task spec), and it then returns the templates of
    the task entries in registry order, appended to what was collected
    before; entries that are not tasks contribute nothing. *)
Theorem gather_collects_in_order (reg : list (Entity * Model)) (tts : list TaskTemplate) :
  (forallb entry_accepted reg = true ->
     gather_task_templates reg tts = OK (tts ++ omap entry_template reg)%list) /\
  (forallb entry_accepted reg = false ->
     exists err, gather_task_templates reg tts = Error err) /\
  (forall out, gather_task_templates reg tts = OK out ->
     forallb entry_accepted reg = true /\ out = (tts ++ omap entry_template reg)%list).
Proof.
  split; [apply gather_all_accepted|]. split; [apply gather_some_rejected|].
  intros out Hout. destruct (forallb entry_accepted reg) eqn:Hall.
  - rewrite (gather_all_accepted reg tts Hall) in Hout. injection Hout as <-. now split.
  - destruct (gather_some_rejected reg tts Hall) as [err Herr]. congruence.
Qed.


Lemma pop_keeps_entity (w : World) :
  self (pop_context w) = self w /\ constructed (pop_context w) = constructed w /\
  calls (pop_context w) = calls w.
Proof. unfold pop_context. destruct (ctx_below w); repeat split. Qed.

(** How a compile ends once the workflow has been materialized: by what the
    workflow's own compile and the serializer answer. *)
Lemma compile_into_workflow_steps (w : World) (ctx : FlyteContext) (f : Callable)
    (kwargs : kwargs_t) :
  let w1 := (_create_and_cache_dynamic_workflow (push_context (compile_frame (self w) ctx) w)).2 in
  compile_into_workflow ctx f kwargs w =
  match wf_compile (compile_frame (self w) ctx) (materialized w) kwargs with
  | Error e => (Error e, pop_context w1)
  | OK g =>
      let w2 := (set_wf (Some (with_graph (materialized w) g)) w1).2 in
      (match get_serializable (compile_frame (self w) ctx) (serialization_settings ctx)
               (with_graph (materialized w) g) with
       | Error e => Error e
       | OK (reg, ws) =>
           if Nat.eqb (length (wt_nodes (template ws))) 0
           then OK (PyLiteralMap (bindings_to_literals (wt_outputs (template ws))))
           else match gather_task_templates reg [] with
                | OK tts => OK (PyDynamicJobSpec (job_spec_of ws tts))
                | Error e => Error e
                end
       end, pop_context w2)
  end.
Proof.
  intros w1. unfold compile_into_workflow, bind.
  change (get_self w) with (OK (self w), w). cbn beta iota.
  change (if bool_decide (execution_mode (self w) = DYNAMIC) then _ else _)
    with (compile_frame (self w) ctx).
  unfold with_context.
  set (w0 := push_context (compile_frame (self w) ctx) w) in *.
  destruct (_create_and_cache_dynamic_workflow w0) as [r w'] eqn:E.
  pose proof (create_result w0) as Hr. pose proof (create_materializes w0) as Hm.
  pose proof (create_frame w0) as Hf. rewrite E in Hr, Hm, Hf. cbn in Hr, Hm, Hf.
  subst r. destruct Hf as (Htop & _).
  change (materialized w0) with (materialized w) in Hm.
  subst w1. cbn [snd].
  unfold compile_cached_workflow, bind, get_self. rewrite Hm.
  unfold current_context, lift. rewrite Htop.
  destruct (wf_compile (compile_frame (self w) ctx) (materialized w) kwargs) as [g|e];
    [|reflexivity].
  unfold set_wf. cbn [self _wf ctx_top snd].
  change {| wf_id := wf_id (materialized w); wf_function := _; wf_metadata := _;
            wf_default_metadata := _; wf_python_interface := _; wf_graph := Some g |}
    with (with_graph (materialized w) g).
  rewrite Htop.
  destruct (get_serializable _ _ _) as [[reg ws]|e]; [|reflexivity].
  cbn [fst snd]. unfold ret, job_spec_of.
  destruct (Nat.eqb _ 0); [reflexivity|].
  destruct (gather_task_templates reg []); reflexivity.
Qed.

(** X10.  Whatever the serializer then answers, a compile whose workflow
    compiled leaves that workflow object cached on the entity with its graph
    stored in it: the object is the one materialized for the compile, at
    most one object was constructed, and later materializations reuse it
    without constructing anything. *)
Theorem compile_caches_workflow (w : World) (ctx : FlyteContext) (f : Callable)
    (kwargs : kwargs_t) (g : WorkflowGraph) :
  wf_compile (compile_frame (self w) ctx) (materialized w) kwargs = OK g ->
  let w' := (compile_into_workflow ctx f kwargs w).2 in
  _wf (self w') = Some (with_graph (materialized w) g) /\
  wf_id (materialized w') = wf_id (materialized w) /\
  constructed w' = match _wf (self w) with
                   | Some _ => constructed w
                   | None => S (constructed w)
                   end /\
  _create_and_cache_dynamic_workflow w' = (OK tt, w').
Proof.
  intros Hc w'. subst w'. rewrite compile_into_workflow_steps, Hc. cbn [snd].
  set (w0 := push_context (compile_frame (self w) ctx) w).
  destruct (pop_keeps_entity
              (set_wf (Some (with_graph (materialized w) g))
                 (_create_and_cache_dynamic_workflow w0).2).2) as (Hs & Hn & _).
  assert (Hwf : _wf (self (pop_context
                  (set_wf (Some (with_graph (materialized w) g))
                     (_create_and_cache_dynamic_workflow w0).2).2))
                = Some (with_graph (materialized w) g)) by now rewrite Hs.
  split; [exact Hwf|]. split; [|split].
  - unfold materialized at 1. rewrite Hwf. reflexivity.
  - rewrite Hn. cbn [set_wf snd constructed]. rewrite create_constructed.
    reflexivity.
  - eapply create_cached. exact Hwf.
Qed.

(** X11.  An exception raised by the workflow's compile or by the serializer
    is the exception of [compile_into_workflow]: the registry walk is not
    reached and no literal map or job spec is returned. *)
Theorem compile_errors_propagate (w : World) (ctx : FlyteContext) (f : Callable)
    (kwargs : kwargs_t) (e : exn) :
  (wf_compile (compile_frame (self w) ctx) (materialized w) kwargs = Error e ->
     (compile_into_workflow ctx f kwargs w).1 = Error e) /\
  (forall g,
     wf_compile (compile_frame (self w) ctx) (materialized w) kwargs = OK g ->
     get_serializable (compile_frame (self w) ctx) (serialization_settings ctx)
       (with_graph (materialized w) g) = Error e ->
     (compile_into_workflow ctx f kwargs w).1 = Error e).
Proof.
  rewrite compile_into_workflow_steps. split.
  - intros ->. reflexivity.
  - intros g -> ->. reflexivity.
Qed.

End Compilation.

Section Entities.
Context {Mo : Models} {Co : Collaborators}.

Lemma prefix_app (m s : string) : String.prefix m (m ++ s) = true.
Proof.
  induction m as [|a m IH]; simpl; [destruct s; reflexivity|].
  destruct (Ascii.ascii_dec a a); [exact IH|congruence].
Qed.

Lemma str_contains_prefix (s sub : string) :
  String.prefix sub s = true -> str_contains s sub = true.
Proof.
  intros H. destruct s as [|a s].
  - destruct sub; [reflexivity|discriminate H].
  - cbn [str_contains]. now rewrite H.
Qed.

(** X12.  The [name] property qualifies at most once.  When the entity
    records a non-empty module it was instantiated in, the name always
    contains that module: it is the stored name if the module already occurs
    in it, and the module, a dot and the stored name otherwise.  An entity
    whose stored name is already the qualified name keeps it unchanged;
    with no module, or an empty one, the name is the stored name. *)
Theorem name_qualifies_once (t : PythonFunctionTask) :
  (forall m, instantiated_in t = Some m -> str_truthy m = true ->
     str_contains (name t) m = true /\
     (name t = _name t \/ name t = m ++ "." ++ _name t)) /\
  (forall t', _name t' = name t -> instantiated_in t' = instantiated_in t ->
     name t' = name t) /\
  (instantiated_in t = None \/ instantiated_in t = Some "" -> name t = _name t).
Proof.
  assert (Hin : forall m, instantiated_in t = Some m -> str_truthy m = true ->
            str_contains (name t) m = true).
  { intros m Hm Ht. unfold name. rewrite Hm, Ht. cbn [andb].
    destruct (str_contains (_name t) m) eqn:Hc; cbn [negb]; [exact Hc|].
    apply str_contains_prefix, prefix_app. }
  split; [|split].
  - intros m Hm Ht. split; [now apply Hin|].
    unfold name. rewrite Hm, Ht. cbn [andb].
    destruct (str_contains (_name t) m); cbn [negb]; [now left|now right].
  - intros t' Hn Hi. unfold name at 1. rewrite Hi, Hn.
    destruct (instantiated_in t) as [m|] eqn:Hm; [|reflexivity].
    destruct (str_truthy m) eqn:Ht; [|reflexivity].
    now rewrite (Hin m eq_refl Ht).
  - intros [H|H]; unfold name; now rewrite H.
Qed.

(** X13.  [AsyncPythonFunctionTask.async_execute] takes keyword arguments
    only and does not handle dynamic entities: positional arguments fail the
    assertion and a [DYNAMIC] entity raises [NotImplementedError], both
    before the task function is called; a [DEFAULT] entity is the call of
    its task function. *)
Theorem async_execute_modes (args : list pyobj) (kwargs : kwargs_t) (w : World) :
  (args <> [] ->
     AsyncPythonFunctionTask_async_execute args kwargs w = (Error (AssertionError ""), w)) /\
  (execution_mode (self w) = DYNAMIC ->
     exists err, AsyncPythonFunctionTask_async_execute args kwargs w = (Error err, w)) /\
  (execution_mode (self w) = DYNAMIC ->
     AsyncPythonFunctionTask_async_execute [] kwargs w = (Error NotImplementedError, w)) /\
  (execution_mode (self w) = DEFAULT ->
     AsyncPythonFunctionTask_async_execute [] kwargs w
     = call (task_function (self w)) kwargs w).
Proof.
  assert (Hnil : AsyncPythonFunctionTask_async_execute [] kwargs w =
                 if bool_decide (execution_mode (self w) = DEFAULT)
                 then call (task_function (self w)) kwargs w
                 else if bool_decide (execution_mode (self w) = DYNAMIC)
                 then (Error NotImplementedError, w)
                 else (OK PyNone, w)).
  { unfold AsyncPythonFunctionTask_async_execute, assert_not_args, bind, get_self, ret.
    cbn beta iota. destruct (bool_decide _); [reflexivity|].
    destruct (bool_decide _); reflexivity. }
  split; [|split; [|split]].
  - intros Hargs. destruct args; [congruence|reflexivity].
  - intros Hm. destruct args; [|eexists; reflexivity].
    rewrite Hnil, Hm. rewrite bool_decide_eq_false_2 by discriminate.
    rewrite bool_decide_eq_true_2 by reflexivity. eauto.
  - intros Hm. rewrite Hnil, Hm. rewrite bool_decide_eq_false_2 by discriminate.
    now rewrite bool_decide_eq_true_2.
  - intros Hm. rewrite Hnil, Hm. now rewrite bool_decide_eq_true_2.
Qed.

(** X14.  An eager entity never carries dependency hints: the eager
    constructor always passes [EAGER] up, so any hints make it raise, and
    every entity it does build is tagged [EAGER], has no hints and no cached
    workflow. *)
Theorem eager_init_rejects_hints (task_config : TaskConfig) (fo : option Callable)
    (task_type : string) (ignore_input_vars : option (list string))
    (task_resolver : option Resolver) (hints : option (list Entity)) (kw : BaseKwargs) :
  let built := EagerAsyncPythonFunctionTask__init__ task_config fo task_type
                 ignore_input_vars task_resolver hints kw in
  (hints <> None -> exists err, built = Error err) /\
  (forall t, built = OK t ->
     execution_mode t = EAGER /\ node_dependency_hints t = None /\ _wf t = None).
Proof.
  intros built. subst built.
  unfold EagerAsyncPythonFunctionTask__init__, __init__.
  destruct fo as [f|]; [|split; [eauto|discriminate]].
  destruct (is_default_resolver _ && _); [split; [eauto|discriminate]|].
  rewrite (bool_decide_eq_true_2 (EAGER <> DYNAMIC)) by discriminate.
  rewrite andb_true_r. destruct hints as [h|].
  - rewrite bool_decide_eq_true_2 by discriminate. split; [eauto|discriminate].
  - rewrite bool_decide_eq_false_2 by (intros H; now apply H).
    split; [congruence|]. intros t [= <-]. repeat split.
Qed.

(** X15.  The constructor's other rejections.  A missing task function is a
    [ValueError].  A function that fails the module-level check is rejected
    with the nested-function [ValueError], whatever the mode and the hints:
    that check comes before the one on hints.  The check only applies under
    the default resolver, and lets through test functions, functions that
    are not nested and functools-wrapped module-level functions. *)
Theorem init_rejections (task_config : TaskConfig) (task_type : string)
    (ignore_input_vars : option (list string)) (mode : ExecutionBehavior)
    (task_resolver : option Resolver) (hints : option (list Entity)) (kw : BaseKwargs) :
  __init__ task_config None task_type ignore_input_vars mode task_resolver hints kw
    = Error (ValueError "TaskFunction is a required parameter for PythonFunctionTask") /\
  (forall f, module_level f task_resolver = false ->
     __init__ task_config (Some f) task_type ignore_input_vars mode task_resolver hints kw
     = Error (ValueError nested_function_msg)) /\
  (forall f r, task_resolver = Some (CustomResolver r) ->
     module_level f task_resolver = true) /\
  (forall f, istestfunction f = true \/ isnested f = false \/
             is_functools_wrapped_module_level f = true ->
     module_level f task_resolver = true) /\
  (forall f, module_level f task_resolver = false <->
     (task_resolver = None \/ task_resolver = Some default_task_resolver) /\
     istestfunction f = false /\ isnested f = true /\
     is_functools_wrapped_module_level f = false).
Proof.
  split; [reflexivity|]. split; [|split; [|split]].
  - intros f H. unfold module_level in H. apply negb_false_iff in H.
    unfold __init__. now rewrite H.
  - intros f r ->. reflexivity.
  - intros f H. unfold module_level.
    destruct (istestfunction f), (isnested f), (is_functools_wrapped_module_level f);
      cbn; rewrite ?andb_false_r; try reflexivity;
      destruct H as [H|[H|H]]; discriminate.
  - intros f. unfold module_level.
    destruct task_resolver as [[|r]|]; cbn;
      destruct (istestfunction f), (isnested f), (is_functools_wrapped_module_level f);
      cbn; split; intros H; try discriminate; try (repeat split; eauto; fail);
      destruct H as ([H|H] & H1 & H2 & H3); discriminate.
Qed.

(** X16.  [local_execute] of an eager entity first turns its inputs into
    native values, and an exception there is its exception.  With a cached
    task and the local cache enabled it raises [NotImplementedError] without
    running anything; otherwise it is [execute] on the native values. *)
Theorem local_execute_cache
    (to_native : FlyteContext -> kwargs_t -> TypedInterface -> result kwargs_t)
    (enabled : bool) (ctx : FlyteContext) (kwargs : kwargs_t) (w : World) :
  (forall e, to_native ctx kwargs (interface (self w)) = Error e ->
     local_execute to_native enabled ctx kwargs w = (Error e, w)) /\
  (forall native, to_native ctx kwargs (interface (self w)) = OK native ->
     cache (metadata (self w)) && enabled = true ->
     local_execute to_native enabled ctx kwargs w = (Error NotImplementedError, w)) /\
  (forall native, to_native ctx kwargs (interface (self w)) = OK native ->
     cache (metadata (self w)) && enabled = false ->
     local_execute to_native enabled ctx kwargs w = async_execute [] native w).
Proof.
  unfold local_execute, bind, get_self, lift, raise, ret.
  split; [|split].
  - intros e ->. reflexivity.
  - intros native -> ->. reflexivity.
  - intros native -> ->.
    destruct (async_execute [] native w) as [[v|e] w']; reflexivity.
Qed.

End Entities.

(** ** flytekit.utils.async_utils *)

Section AsyncBridge.
Import AsyncUtils.
Context {Loop Args Val : Type}.

(** X17.  [ensure_no_loop] returns normally exactly when asking for the
    running loop fails with the "no running event loop" [RuntimeError]; it
    then logs nothing.  With a running loop it raises [AssertionError] with
    the message it was given. *)
Theorem ensure_no_loop_iff (error_msg : string) (th : Thread Loop) :
  ((ensure_no_loop error_msg th).1 = Returned tt <->
   exists e, get_running_loop th = Raised (RuntimeError e) /\
             str_contains e no_loop_text = true) /\
  ((ensure_no_loop error_msg th).1 = Returned tt ->
   (ensure_no_loop error_msg th).2 = th) /\
  (forall l, get_running_loop th = Returned l ->
     ensure_no_loop error_msg th = (Raised (AssertionError error_msg), th)).
Proof.
  unfold ensure_no_loop.
  destruct (get_running_loop th) as [l|[m|e|o]] eqn:Hg; cbn.
  - split; [|split; [discriminate|reflexivity]].
    split; [discriminate|]. intros (e & He & _). discriminate.
  - split; [|split; [discriminate|discriminate]].
    split; [discriminate|]. intros (e & He & _). discriminate.
  - destruct (str_contains e no_loop_text) eqn:Hc; cbn.
    + split; [|split; [reflexivity|discriminate]].
      split; [eauto|reflexivity].
    + split; [|split; [discriminate|discriminate]].
      split; [discriminate|]. intros (e' & [= <-] & He). congruence.
  - split; [|split; [discriminate|discriminate]].
    split; [discriminate|]. intros (e & He & _). discriminate.
Qed.

(** X18.  [ensure_and_get_running_loop] does not raise when no loop is
    running: it returns [None], in exactly the cases where [ensure_no_loop]
    returns normally; with a running loop it returns that loop.  Any other
    exception is raised by both helpers alike, with the same line logged. *)
Theorem ensure_and_get_agrees (error_msg : string) (th : Thread Loop) :
  ((ensure_and_get_running_loop th).1 = Returned None <->
   (ensure_no_loop error_msg th).1 = Returned tt) /\
  (forall l, (ensure_and_get_running_loop th).1 = Returned (Some l) <->
     get_running_loop th = Returned l) /\
  (forall e, (ensure_and_get_running_loop th).1 = Raised e ->
     ensure_no_loop error_msg th = (Raised e, (ensure_and_get_running_loop th).2)).
Proof.
  unfold ensure_and_get_running_loop, ensure_no_loop.
  destruct (get_running_loop th) as [l|[m|e|o]]; cbn.
  - split; [split; discriminate|]. split; [|discriminate].
    intros l'. split; congruence.
  - split; [split; discriminate|]. split; [intros l'; split; discriminate|].
    intros e [= <-]. reflexivity.
  - destruct (str_contains e no_loop_text); cbn.
    + split; [split; reflexivity|]. split; [intros l'; split; discriminate|discriminate].
    + split; [split; discriminate|]. split; [intros l'; split; discriminate|].
      intros e' [= <-]. reflexivity.
  - split; [split; discriminate|]. split; [intros l'; split; discriminate|].
    intros e [= <-]. reflexivity.
Qed.

(** X19.  [top_level_sync] never calls the function while a loop is
    running: it raises [AssertionError] naming the function and leaves the
    thread untouched.  When no loop is running it calls the function exactly
    once and returns (or raises) what the function does.  The wrapper built
    by [top_level_sync_wrapper] behaves the same. *)
Theorem top_level_sync_guard (func : AsyncFunc Args Val) (args : Args) (th : Thread Loop) :
  (forall l, get_running_loop th = Returned l ->
     top_level_sync func args th =
     (Raised (AssertionError ("Calling " ++ func_name func ++
                              " when event loop active not allowed")), th)) /\
  (forall e, get_running_loop th = Raised (RuntimeError e) ->
     str_contains e no_loop_text = true ->
     (top_level_sync func args th).1 = run func args /\
     called (top_level_sync func args th).2 = (called th ++ [func_name func])%list /\
     logged_errors (top_level_sync func args th).2 = logged_errors th) /\
  (called (top_level_sync func args th).2 = called th \/
   (top_level_sync func args th).1 = run func args) /\
  top_level_sync_wrapper func args th = top_level_sync func args th.
Proof.
  unfold top_level_sync_wrapper, top_level_sync, ensure_no_loop.
  split; [|split; [|split]].
  - intros l ->. reflexivity.
  - intros e -> ->. cbn. repeat split.
  - destruct (get_running_loop th) as [l|[m|e|o]]; cbn; try (now left).
    destruct (str_contains e no_loop_text); cbn; [now right|now left].
  - reflexivity.
Qed.

End AsyncBridge.

(** ** flytekit.exceptions.utils *)

Section SourceAnnotation.
Import ExceptionUtils.

Lemma find_param_sound (nodes : list ast_node) (func_name param_name : string)
    (start_line line col : Z) :
  find_param nodes func_name param_name start_line = Some (line, col) ->
  exists lineno args,
    FunctionDef func_name lineno args ∈ nodes /\
    find_arg args param_name = Some col /\
    line = (start_line + lineno - 1)%Z.
Proof.
  induction nodes as [|[fname lineno args|] nodes IH]; cbn; intros H; [discriminate| |].
  - destruct (String.eqb fname func_name) eqn:Hn.
    + apply String.eqb_eq in Hn. subst fname.
      destruct (find_arg args param_name) as [c|] eqn:Ha.
      * injection H as <- <-. exists lineno, args. repeat split; [left|exact Ha].
      * destruct (IH H) as (l & a & Hin & Hf & Hl). exists l, a.
        repeat split; [now right|exact Hf|exact Hl].
    + destruct (IH H) as (l & a & Hin & Hf & Hl). exists l, a.
      repeat split; [now right|exact Hf|exact Hl].
  - destruct (IH H) as (l & a & Hin & Hf & Hl). exists l, a.
    repeat split; [now right|exact Hf|exact Hl].
Qed.

Lemma find_param_none (nodes : list ast_node) (func_name param_name : string)
    (start_line : Z) :
  find_param nodes func_name param_name start_line = None <->
  forall lineno args, FunctionDef func_name lineno args ∈ nodes ->
    find_arg args param_name = None.
Proof.
  induction nodes as [|[fname lineno args|] nodes IH]; cbn.
  - split; [|reflexivity]. intros _ l a Hin. now apply elem_of_nil in Hin.
  - destruct (String.eqb fname func_name) eqn:Hn.
    + apply String.eqb_eq in Hn. subst fname.
      destruct (find_arg args param_name) as [c|] eqn:Ha.
      * split; [discriminate|]. intros H.
        specialize (H lineno args ltac:(left)). congruence.
      * rewrite IH. split.
        -- intros H l a Hin. apply elem_of_cons in Hin as [Heq|Hin];
             [injection Heq as -> ->; exact Ha|exact (H l a Hin)].
        -- intros H l a Hin. apply (H l a). now right.
    + apply String.eqb_neq in Hn. rewrite IH. split.
      * intros H l a Hin. apply elem_of_cons in Hin as [Heq|Hin];
          [injection Heq as Heq _ _; congruence|exact (H l a Hin)].
      * intros H l a Hin. apply (H l a). now right.
  - rewrite IH. split.
    + intros H l a Hin. apply elem_of_cons in Hin as [Hin|Hin];
        [discriminate|exact (H l a Hin)].
    + intros H l a Hin. apply (H l a). now right.
Qed.

Lemma find_arg_sound (args : list (string * Z)) (param_name : string) (col : Z) :
  find_arg args param_name = Some col -> (param_name, col) ∈ args.
Proof.
  induction args as [|[a c] args IH]; cbn; [discriminate|].
  destruct (String.eqb a param_name) eqn:Ha.
  - apply String.eqb_eq in Ha. intros [= <-]. subst a. left.
  - intros H. right. now apply IH.
Qed.

(** X20.  [get_function_param_location] returns a location only for a
    parameter that a function definition of that name really has: the
    column is that parameter's, and the line is the definition's line
    counted from the first source line.  It returns [None], not an error,
    exactly when no definition of that name in the parsed source has the
    parameter. *)
Theorem param_location_found (func : Function) (param_name : string)
    (lines : list string) (start_line : Z) (nodes : list ast_node) :
  getsourcelines func = Returned (lines, start_line) ->
  walk func = Returned nodes ->
  (forall line col,
     get_function_param_location func param_name = Returned (Some (line, col)) ->
     exists lineno args,
       FunctionDef (__name__ func) lineno args ∈ nodes /\
       (param_name, col) ∈ args /\
       line = (start_line + lineno - 1)%Z) /\
  (get_function_param_location func param_name = Returned None <->
   forall lineno args, FunctionDef (__name__ func) lineno args ∈ nodes ->
     find_arg args param_name = None) /\
  (exists loc, get_function_param_location func param_name = Returned loc).
Proof.
  intros Hs Hw. unfold get_function_param_location. rewrite Hs, Hw.
  split; [|split].
  - intros line col [= H]. apply find_param_sound in H as (l & a & Hin & Hf & Hl).
    exists l, a. repeat split; [exact Hin|now apply find_arg_sound|exact Hl].
  - rewrite <- find_param_none. split; [intros [= H]; exact H|intros ->; reflexivity].
  - eauto.
Qed.





(** X22.  [annotate_exception_with_code] never raises and always hands back
    the exception it was given, with the same message.  When the source
    snippet can be built, the exception's source-code attribute is set to
    the snippet, then as many spaces as the parameter's column, then the
    caret comment with the exception's message; other attributes are kept.
    When anything fails -- the source is unavailable, or the parameter is
    not found in it -- the exception comes back unchanged and one error line
    is logged. *)
Theorem annotate_never_raises (SOURCE_CODE : string) (exception : Exception)
    (fn : Function) (param_name : string) :
  let annotated := annotate_exception_with_code SOURCE_CODE exception fn param_name in
  message annotated.1 = message exception /\
  (forall k, k <> SOURCE_CODE ->
     attributes annotated.1 !! k = attributes exception !! k) /\
  (forall source_code col,
     get_source_code_from_fn fn param_name = Returned (source_code, col) ->
     attributes annotated.1 !! SOURCE_CODE =
       Some (source_code ++ spaces col ++ " # ^ " ++ message exception) /\
     annotated.2 = []) /\
  (forall e, get_source_code_from_fn fn param_name = Raised e ->
     annotated =
     (exception, ["Failed to annotate exception with source code: " ++ exc_message e])) /\
  (forall lines start_line nodes,
     getsourcelines fn = Returned (lines, start_line) ->
     walk fn = Returned nodes ->
     find_param nodes (__name__ fn) param_name start_line = None ->
     annotated.1 = exception /\ length annotated.2 = 1).
Proof.
  intros annotated. subst annotated. unfold annotate_exception_with_code.
  split; [|split; [|split; [|split]]].
  - destruct (get_source_code_from_fn fn param_name) as [[src col]|e]; reflexivity.
  - intros k Hk.
    destruct (get_source_code_from_fn fn param_name) as [[src col]|e]; [|reflexivity].
    cbn. now apply lookup_insert_ne.
  - intros src col ->. cbn. split; [apply lookup_insert_eq|reflexivity].
  - intros e ->. reflexivity.
  - intros lines start_line nodes Hs Hw Hnone.
    unfold get_source_code_from_fn, get_function_param_location.
    rewrite Hs, Hw, Hnone. split; reflexivity.
Qed.

End SourceAnnotation.

(** ** The further properties on concrete inputs *)



Lemma dynamic_local_single_output_double :
  output_names (self Demo2.double_local_world) = ["o0"] /\
  exists d : gmap string Z,
    (execute (Co := Demo2.collaborators2) kw3 Demo2.double_local_world).1
      = OK (PyLiteralMap d) /\
    d !! "o0" = Some 6%Z.
Proof.
  split; [reflexivity|].
  destruct (dynamic_local_single_output (Co := Demo2.collaborators2)
              Demo2.double_local_world kw3 local_state (PyInt 6) "o0"
              eq_refl eq_refl eq_refl eq_refl eq_refl ltac:(discriminate) eq_refl)
    as (Hwhole & _).
  rewrite (Hwhole eq_refl). eexists. split; reflexivity.
Defined.

Lemma dynamic_local_positional_outputs_pair :
  output_names (self Demo2.pair_world) = ["o0"; "o1"] /\
  exists d : gmap string Z,
    (execute (Co := Demo2.collaborators2) no_kwargs Demo2.pair_world).1
      = OK (PyLiteralMap d) /\
    d !! "o0" = Some 1%Z /\ d !! "o1" = Some 2%Z.
Proof.
  split; [reflexivity|].
  destruct (dynamic_local_positional_outputs (Co := Demo2.collaborators2)
              Demo2.pair_world no_kwargs local_state [PyInt 1; PyInt 2]
              eq_refl eq_refl eq_refl eq_refl ltac:(discriminate) ltac:(discriminate))
    as (m & Hrun & _ & _).
  - cbn. lia.
  - repeat constructor; set_solver.
  - eexists. split; [|split]; vm_compute; reflexivity.
Defined.



Lemma compile_caches_workflow_gen :
  let w' := (compile_into_workflow (ctx_top gen_world) (silent "gen") no_kwargs
               gen_world).2 in
  option_map wf_id (_wf (self w')) = Some 0 /\
  option_map wf_graph (_wf (self w')) = Some (Some []) /\
  constructed w' = 1.
Proof.
  destruct (compile_caches_workflow (Co := collaborators) gen_world (ctx_top gen_world)
              (silent "gen") no_kwargs [] eq_refl) as (Hwf & _ & Hn & _).
  cbv zeta. rewrite Hwf, Hn. repeat split.
Defined.

Lemma param_location_found_wf :
  ExceptionUtils.get_function_param_location Demo2.wf_fn "a"
    = ExceptionUtils.Returned (Some (24, 19)%Z) /\
  ExceptionUtils.get_function_param_location Demo2.wf_fn "c"
    = ExceptionUtils.Returned None.
Proof.
  destruct (param_location_found Demo2.wf_fn "c" _ 23%Z _ eq_refl eq_refl)
    as (_ & Hnone & _).
  split; [reflexivity|]. apply Hnone.
  intros lineno args Hin.
  apply elem_of_cons in Hin as [Hin|Hin]; [discriminate|].
  apply elem_of_cons in Hin as [Hin|Hin]; [injection Hin as _ ->; reflexivity|].
  apply elem_of_cons in Hin as [Hin|Hin]; [discriminate|].
  now apply elem_of_nil in Hin.
Defined.

